(** * AirUp stock checker: a shallow embedding of [main.py]

    The script polls one storefront endpoint, counts the outcomes in a
    shared [Statistics] object, and fans a notification out to the
    registered backends on the first in-stock answer.

    Modelling conventions.
    - A Python [str] is a [string] holding its UTF-8 bytes; every pattern
      the script searches for or replaces is ASCII, so byte-wise search and
      replacement agree with Python's code-point-wise ones.
    - A Python [int] is a [Z].
    - Objects that are mutated and shared ([Statistics], the notification
      services) live in a store and are handled through references.
    - The outside world (HTTP replies, failing backends, the OS name) is an
      explicit environment; everything the script does to the outside world
      is appended to a trace of events. *)

From Stdlib Require Import ZArith String Ascii List DecimalString Lia.
From stdpp Require Import base gmap strings list.

Local Open Scope Z_scope.

(** ** Strings *)

Module PyStr.

(** The double quote, as a character and as a one-character string. *)
Definition dquote_char : ascii := ascii_of_nat 34.
Definition dquote : string := String dquote_char EmptyString.
Definition backslash_char : ascii := ascii_of_nat 92.

(** [all_chars p s]: every character of [s] satisfies [p]. *)
Fixpoint all_chars (p : ascii -> bool) (s : string) : bool :=
  match s with
  | EmptyString => true
  | String c s' => p c && all_chars p s'
  end.

(** [sub in s] *)
Fixpoint contains (sub s : string) : bool :=
  String.prefix sub s ||
  match s with
  | EmptyString => false
  | String _ s' => contains sub s'
  end.

(** [str.replace] for a non-empty pattern: scan left to right, replace each
    non-overlapping occurrence; [skip] counts the characters of a matched
    occurrence that are still to be dropped. *)
Fixpoint replace_from (old new : string) (skip : nat) (s : string) : string :=
  match s with
  | EmptyString => EmptyString
  | String c s' =>
      match skip with
      | S k => replace_from old new k s'
      | O =>
          if String.prefix old s
          then new +:+ replace_from old new (String.length old - 1) s'
          else String c (replace_from old new 0 s')
      end
  end.

Fixpoint intersperse_after (new s : string) : string :=
  match s with
  | EmptyString => EmptyString
  | String c s' => String c (new +:+ intersperse_after new s')
  end.

(** [s.replace(old, new)]; with an empty pattern Python inserts [new]
    before every character and at the end. *)
Definition replace (old new s : string) : string :=
  match old with
  | EmptyString => new +:+ intersperse_after new s
  | _ => replace_from old new 0 s
  end.

(** [str(n)] for an [int]. *)
Definition str_int (n : Z) : string := NilZero.string_of_int (Z.to_int n).

End PyStr.

Import PyStr.

(** ** Data model *)

Inductive NotificationStatus := SUCCESS | ERROR | INFO | WARNING.

Record ProductConfig := {
  url : string;
  cart_id : string;
  bottle_handle : string;
  flavor_handle : string;
  country : string;
  language : string
}.

Record Statistics := {
  total_checks : Z;
  in_stock_count : Z;
  out_of_stock_count : Z;
  error_count : Z
}.

(** [Statistics()] with the dataclass defaults. *)
Definition Statistics_default : Statistics :=
  {| total_checks := 0; in_stock_count := 0;
     out_of_stock_count := 0; error_count := 0 |}.

(** ** The console title ([Statistics.update_title]) *)

Module Title.

(** The f-string of line 42. *)
Definition raw_title (s : Statistics) : string :=
  "AirUp Checker | No Stock: " +:+ str_int (out_of_stock_count s)
  +:+ " | Stock: " +:+ str_int (in_stock_count s).

(** The chain of [replace] calls of line 44, in the order it is written. *)
Definition escape (title : string) : string :=
  replace ">" "^>"
   (replace "<" "^<"
    (replace "|" "^|"
     (replace "&" "^&"
      (replace "^" "^^"
       (replace "!" "^!"
        (replace ")" "^)"
         (replace "(" "^(" title))))))).

Definition escaped_title (s : Statistics) : string := escape (raw_title s).

(** The shell command handed to [os.system], by OS name. *)
Definition title_command (os_name : string) (s : Statistics) : string :=
  if String.eqb os_name "nt"
  then "title " +:+ escaped_title s
  else "echo -en '" +:+ String (ascii_of_nat 27) "]0;" +:+ escaped_title s
       +:+ String (ascii_of_nat 7) "'".

(** What the specification asks of the escaping, in its own words: the
    characters the title mechanism treats specially, each prefixed with
    exactly one caret, every other character left alone. *)
Definition special (c : ascii) : bool :=
  existsb (Ascii.eqb c)
    ["("; ")"; "!"; "^"; "&"; "|"; "<"; ">"]%char.

Fixpoint caret_prefixed (s : string) : string :=
  match s with
  | EmptyString => EmptyString
  | String c s' =>
      if special c then String "^" (String c (caret_prefixed s'))
      else String c (caret_prefixed s')
  end.

(** Characters that the first three replacements rewrite, and the caret
    itself, which the fourth replacement doubles. *)
Definition early (c : ascii) : bool :=
  existsb (Ascii.eqb c) ["("; ")"; "!"; "^"]%char.

(** Characters of a decimal numeral. *)
Definition numeral_char (c : ascii) : bool :=
  existsb (Ascii.eqb c)
    ["-"; "0"; "1"; "2"; "3"; "4"; "5"; "6"; "7"; "8"; "9"]%char.

End Title.


(** ** The request body ([AirUpChecker._get_request_body]) *)

(** The f-string of lines 155-159: the five configuration fields are
    interpolated as they are between literal double quotes. *)
Definition _get_request_body (cfg : ProductConfig) : string :=
  "[{" +:+ dquote +:+ "cartId" +:+ dquote +:+ ":"
       +:+ dquote +:+ cart_id cfg +:+ dquote +:+ ","
  +:+ dquote +:+ "bottleHandle" +:+ dquote +:+ ":"
       +:+ dquote +:+ bottle_handle cfg +:+ dquote +:+ ","
  +:+ dquote +:+ "flavorHandle" +:+ dquote +:+ ":"
       +:+ dquote +:+ flavor_handle cfg +:+ dquote +:+ ","
  +:+ dquote +:+ "country" +:+ dquote +:+ ":"
       +:+ dquote +:+ country cfg +:+ dquote +:+ ","
  +:+ dquote +:+ "language" +:+ dquote +:+ ":"
       +:+ dquote +:+ language cfg +:+ dquote +:+ "}]".

(** ** JSON texts (RFC 8259), to say what a body denotes *)

Module Json.

#[warnings="-register-all"] Inductive json :=
| JNull
| JBool (b : bool)
| JNumber (literal : string)
| JString (s : string)
| JArray (items : list json)
| JObject (members : list (string * json)).

Definition is_ws (c : ascii) : bool :=
  existsb (Ascii.eqb c) [" "; "009"; "010"; "013"]%char.

Fixpoint skip_ws (s : string) : string :=
  match s with
  | String c r => if is_ws c then skip_ws r else s
  | EmptyString => s
  end.

Definition hex_value (c : ascii) : option N :=
  let n := N_of_ascii c in
  if ((48 <=? n) && (n <=? 57))%N then Some (n - 48)%N
  else if ((65 <=? n) && (n <=? 70))%N then Some (n - 55)%N
  else if ((97 <=? n) && (n <=? 102))%N then Some (n - 87)%N
  else None.

Definition hex4 (a b c d : ascii) : option N :=
  match hex_value a, hex_value b, hex_value c, hex_value d with
  | Some x, Some y, Some z, Some w => Some (x * 4096 + y * 256 + z * 16 + w)%N
  | _, _, _, _ => None
  end.

(** The UTF-8 bytes of a code point, in front of [rest]. *)
Definition utf8 (n : N) (rest : string) : string :=
  let byte k := ascii_of_N k in
  (if n <? 128 then String (byte n) rest
   else if n <? 2048 then
     String (byte (192 + n / 64)) (String (byte (128 + n mod 64)) rest)
   else if n <? 65536 then
     String (byte (224 + n / 4096))
       (String (byte (128 + (n / 64) mod 64))
          (String (byte (128 + n mod 64)) rest))
   else
     String (byte (240 + n / 262144))
       (String (byte (128 + (n / 4096) mod 64))
          (String (byte (128 + (n / 64) mod 64))
             (String (byte (128 + n mod 64)) rest))))%N.

(** The character a two-character escape stands for. *)
Definition simple_escape (e : ascii) : option ascii :=
  if Ascii.eqb e dquote_char then Some dquote_char
  else if Ascii.eqb e backslash_char then Some backslash_char
  else if Ascii.eqb e "/" then Some "/"%char
  else if Ascii.eqb e "b" then Some (ascii_of_nat 8)
  else if Ascii.eqb e "f" then Some (ascii_of_nat 12)
  else if Ascii.eqb e "n" then Some (ascii_of_nat 10)
  else if Ascii.eqb e "r" then Some (ascii_of_nat 13)
  else if Ascii.eqb e "t" then Some (ascii_of_nat 9)
  else None.

Definition with_prefix (f : string -> string) (r : option (string * string))
  : option (string * string) :=
  match r with
  | Some (s, rest) => Some (f s, rest)
  | None => None
  end.

(** The characters of a string, read after its opening quote: the decoded
    contents and what follows the closing quote. Unescaped control
    characters are refused. *)
Fixpoint string_body (s : string) : option (string * string) :=
  match s with
  | EmptyString => None
  | String c r =>
      if Ascii.eqb c dquote_char then Some (EmptyString, r)
      else if Ascii.eqb c backslash_char then
        match r with
        | EmptyString => None
        | String e r1 =>
            match simple_escape e with
            | Some ch => with_prefix (String ch) (string_body r1)
            | None =>
                if Ascii.eqb e "u" then
                  match r1 with
                  | String h1 (String h2 (String h3 (String h4 r2))) =>
                      match hex4 h1 h2 h3 h4 with
                      | None => None
                      | Some hi =>
                          let single := with_prefix (utf8 hi) (string_body r2) in
                          if ((55296 <=? hi) && (hi <? 56320))%N then
                            match r2 with
                            | String b (String u (String l1 (String l2
                                (String l3 (String l4 r3))))) =>
                                if Ascii.eqb b backslash_char && Ascii.eqb u "u"
                                then
                                  match hex4 l1 l2 l3 l4 with
                                  | Some lo =>
                                      if ((56320 <=? lo) && (lo <? 57344))%N
                                      then with_prefix
                                             (utf8 (65536 + (hi - 55296) * 1024
                                                    + (lo - 56320))%N)
                                             (string_body r3)
                                      else single
                                  | None => None
                                  end
                                else single
                            | _ => single
                            end
                          else single
                      end
                  | _ => None
                  end
                else None
            end
        end
      else if (N_of_ascii c <? 32)%N then None
      else with_prefix (String c) (string_body r)
  end.

Definition is_digit (c : ascii) : bool :=
  ((48 <=? N_of_ascii c) && (N_of_ascii c <=? 57))%N.

Fixpoint digits (s : string) : string * string :=
  match s with
  | String c r =>
      if is_digit c then let (d, rest) := digits r in (String c d, rest)
      else (EmptyString, s)
  | EmptyString => (EmptyString, s)
  end.

(** A number literal: [-? int frac? exp?]; kept as its text. *)
Definition number (s : string) : option (string * string) :=
  let (sign, s1) :=
    match s with
    | String "-" r => ("-", r)
    | _ => (EmptyString, s)
    end in
  let (int, s2) := digits s1 in
  match int with
  | EmptyString => None
  | String "0" (String _ _) => None
  | _ =>
      let frac :=
        match s2 with
        | String "." r =>
            let (f, s3) := digits r in
            match f with
            | EmptyString => None
            | _ => Some ("." +:+ f, s3)
            end
        | _ => Some (EmptyString, s2)
        end in
      match frac with
      | None => None
      | Some (f, s3) =>
          let e_sign (r : string) : string * string :=
            match r with
            | String "+" r' => ("+", r')
            | String "-" r' => ("-", r')
            | _ => (EmptyString, r)
            end in
          match s3 with
          | String c r =>
              if Ascii.eqb c "e" || Ascii.eqb c "E" then
                let (es, s4) := e_sign r in
                let (ed, s5) := digits s4 in
                match ed with
                | EmptyString => None
                | _ => Some (sign +:+ int +:+ f +:+ String c es +:+ ed, s5)
                end
              else Some (sign +:+ int +:+ f, s3)
          | EmptyString => Some (sign +:+ int +:+ f, s3)
          end
      end
  end.

Definition strip_prefix (p s : string) : option string :=
  if String.prefix p s
  then Some (String.substring (String.length p)
               (String.length s - String.length p) s)
  else None.

(** A value, the rest of an array after its opening bracket, the rest of an
    object after its opening brace; [fuel] bounds the recursion depth. *)
Fixpoint value (fuel : nat) (s : string) : option (json * string) :=
  match fuel with
  | O => None
  | S fuel' =>
      match skip_ws s with
      | EmptyString => None
      | String c r as t =>
          if Ascii.eqb c "[" then
            match skip_ws r with
            | String "]" r' => Some (JArray [], r')
            | r' => elements fuel' r' []
            end
          else if Ascii.eqb c "{" then
            match skip_ws r with
            | String "}" r' => Some (JObject [], r')
            | r' => members fuel' r' []
            end
          else if Ascii.eqb c dquote_char then
            match string_body r with
            | Some (str, r') => Some (JString str, r')
            | None => None
            end
          else
            match strip_prefix "true" t, strip_prefix "false" t,
                  strip_prefix "null" t with
            | Some r', _, _ => Some (JBool true, r')
            | _, Some r', _ => Some (JBool false, r')
            | _, _, Some r' => Some (JNull, r')
            | None, None, None =>
                match number t with
                | Some (lit, r') => Some (JNumber lit, r')
                | None => None
                end
            end
      end
  end
with elements (fuel : nat) (s : string) (acc : list json)
  : option (json * string) :=
  match fuel with
  | O => None
  | S fuel' =>
      match value fuel' s with
      | None => None
      | Some (v, r) =>
          match skip_ws r with
          | String "," r' => elements fuel' r' (v :: acc)
          | String "]" r' => Some (JArray (rev (v :: acc)), r')
          | _ => None
          end
      end
  end
with members (fuel : nat) (s : string) (acc : list (string * json))
  : option (json * string) :=
  match fuel with
  | O => None
  | S fuel' =>
      match skip_ws s with
      | String c r =>
          if Ascii.eqb c dquote_char then
            match string_body r with
            | None => None
            | Some (key, r1) =>
                match skip_ws r1 with
                | String ":" r2 =>
                    match value fuel' r2 with
                    | None => None
                    | Some (v, r3) =>
                        match skip_ws r3 with
                        | String "," r4 => members fuel' r4 ((key, v) :: acc)
                        | String "}" r4 =>
                            Some (JObject (rev ((key, v) :: acc)), r4)
                        | _ => None
                        end
                    end
                | _ => None
                end
            end
          else None
      | EmptyString => None
      end
  end.

(** A whole JSON text: one value, then only white space. Every level of
    nesting consumes a character, so twice the length is fuel enough. *)
Definition parse (s : string) : option json :=
  match value (2 * String.length s + 2) s with
  | Some (v, r) =>
      match skip_ws r with
      | EmptyString => Some v
      | _ => None
      end
  | None => None
  end.

(** The value of member [key] of an object. *)
Fixpoint member (key : string) (ms : list (string * json)) : option json :=
  match ms with
  | [] => None
  | (k, v) :: ms' => if String.eqb k key then Some v else member key ms'
  end.

End Json.

(** The five fields the body is said to carry, with their values. *)
Definition body_fields (cfg : ProductConfig) : list (string * string) :=
  [ ("cartId", cart_id cfg); ("bottleHandle", bottle_handle cfg);
    ("flavorHandle", flavor_handle cfg); ("country", country cfg);
    ("language", language cfg) ].

(** "A JSON array containing exactly one object with exactly the five
    string fields, whose values equal the configuration's": the text parses
    to a one-element array whose element is an object with five members,
    among them each of the five names with its value. *)
Definition denotes_config (text : string) (cfg : ProductConfig) : Prop :=
  exists ms,
    Json.parse text = Some (Json.JArray [Json.JObject ms]) /\
    length ms = 5%nat /\
    forall k v, In (k, v) (body_fields cfg) ->
                Json.member k ms = Some (Json.JString v).

(** Characters that stand for themselves inside a JSON string: no double
    quote, no backslash, no control character. *)
Definition json_plain_char (c : ascii) : bool :=
  negb (Ascii.eqb c dquote_char) && negb (Ascii.eqb c backslash_char)
  && negb (N_of_ascii c <? 32)%N.

Definition json_plain (s : string) : bool := all_chars json_plain_char s.

Definition config_plain (cfg : ProductConfig) : bool :=
  json_plain (cart_id cfg) && json_plain (bottle_handle cfg)
  && json_plain (flavor_handle cfg) && json_plain (country cfg)
  && json_plain (language cfg).

(** ** Exceptions, HTTP, services *)

(** The classes of the exceptions the script meets. Every value of [PyExc]
    is an instance of Python's [Exception]; [RequestException] covers
    [requests.exceptions.RequestException] with all its subclasses
    (connection errors, timeouts, ...). *)
Inductive ExcClass :=
| RequestException (subclass : string)
| AttributeError
| OtherException (name : string).

Record PyExc := { exc_class : ExcClass; exc_str : string }.

(** [isinstance(e, requests.exceptions.RequestException)] *)
Definition is_RequestException (e : PyExc) : bool :=
  match exc_class e with
  | RequestException _ => true
  | _ => false
  end.

(** [isinstance(e, Exception)] *)
Definition is_Exception (e : PyExc) : bool := true.

Record Response := { status_code : Z; text : string }.

(** What a call of [requests.post] does: it returns a response, or raises
    one of the exceptions of [requests] (a transport-level error). *)
Inductive HttpOutcome :=
| Responds (r : Response)
| TransportError (subclass : string) (message : string).

(** References into the store. *)
Abbreviation ref := nat.

(** A notification service object: its class and its attributes. The
    [statistics] attribute of a Discord service is absent until something
    assigns it. [OtherNotificationService] stands for any further subclass
    of the abstract base class. *)
Inductive Service :=
| DesktopNotificationService
| DiscordNotificationService (webhook_url : string) (statistics : option ref)
| OtherNotificationService (class_name : string).

(** [service.__class__.__name__] *)
Definition class_name_of (s : Service) : string :=
  match s with
  | DesktopNotificationService => "DesktopNotificationService"
  | DiscordNotificationService _ _ => "DiscordNotificationService"
  | OtherNotificationService n => n
  end.

(** The embed a Discord service posts; the timestamp is left out, the clock
    is not modelled. *)
Record Embed := {
  embed_title : string;
  embed_description : string;
  embed_color : Z;
  embed_field_name : string;
  embed_field_value : string;
  embed_field_inline : bool
}.

(** The arguments of [requests.post] besides the URL. *)
Inductive PostArgs :=
| WithData (headers : list (string * string)) (data : string)
| WithJson (embeds : list Embed).

(** ** The outside world *)

(** What the script does to the outside world, in order. [EvSend] records
    that a [send_notification] call reached the service object at a
    reference; the other events are calls of library functions. A log event
    is one console line in the colour of its status, stamped with the local
    time. *)
Inductive Event :=
| EvSystem (command : string)
| EvLog (message : string) (status : NotificationStatus)
| EvPrint (line : string)
| EvPost (url : string) (args : PostArgs)
| EvPopup (title message : string) (timeout : Z)
| EvSend (service : ref) (title message : string) (status : NotificationStatus)
| EvSleep (seconds : Z).

(** What the outside world answers: the OS name, the outcome of the n-th
    call of [requests.post], and whether the n-th call into a desktop or
    user-defined backend raises. *)
Record Env := {
  os_name : string;
  http_reply : nat -> HttpOutcome;
  backend_failure : nat -> option PyExc
}.

(** The store of shared objects, the trace so far, and how many answers of
    the environment have been consumed. *)
Record World := {
  statistics_store : gmap nat Statistics;
  service_store : gmap nat Service;
  trace : list Event;
  http_calls : nat;
  backend_calls : nat
}.

Definition empty_world : World :=
  {| statistics_store := ∅; service_store := ∅; trace := [];
     http_calls := 0; backend_calls := 0 |}.

(** ** A monad for state and exceptions *)

(** A computation returns a value or raises an exception; [Fault] marks a
    read through a reference that is not in the store, which no Python
    program can do. *)
Inductive Outcome (A : Type) :=
| Returns (a : A)
| Raises (e : PyExc)
| Fault.
Arguments Returns {A} a.
Arguments Raises {A} e.
Arguments Fault {A}.

Definition M (A : Type) : Type := World -> Outcome A * World.

#[global] Instance M_ret : MRet M := fun A a w => (Returns a, w).

#[global] Instance M_bind : MBind M := fun A B f m w =>
  match m w with
  | (Returns a, w') => f a w'
  | (Raises e, w') => (Raises e, w')
  | (Fault, w') => (Fault, w')
  end.

Definition raise {A} (e : PyExc) : M A := fun w => (Raises e, w).

(** [try: body except <class> as e: handler e] *)
Definition try_except {A} (body : M A) (caught : PyExc -> bool)
    (handler : PyExc -> M A) : M A := fun w =>
  match body w with
  | (Raises e, w') => if caught e then handler e w' else (Raises e, w')
  | r => r
  end.

(** [for x in xs: body x] *)
Fixpoint for_each {A} (body : A -> M unit) (xs : list A) : M unit :=
  match xs with
  | [] => mret tt
  | x :: xs' => body x;; for_each body xs'
  end.

Definition emit (e : Event) : M unit := fun w =>
  (Returns tt,
   {| statistics_store := statistics_store w;
      service_store := service_store w;
      trace := trace w ++ [e];
      http_calls := http_calls w;
      backend_calls := backend_calls w |}).

Definition get_statistics (r : ref) : M Statistics := fun w =>
  match statistics_store w !! r with
  | Some s => (Returns s, w)
  | None => (Fault, w)
  end.

Definition set_statistics (r : ref) (s : Statistics) : M unit := fun w =>
  (Returns tt,
   {| statistics_store := <[r := s]> (statistics_store w);
      service_store := service_store w;
      trace := trace w;
      http_calls := http_calls w;
      backend_calls := backend_calls w |}).

Definition get_service (l : ref) : M Service := fun w =>
  match service_store w !! l with
  | Some s => (Returns s, w)
  | None => (Fault, w)
  end.

Definition set_service (l : ref) (s : Service) : M unit := fun w =>
  (Returns tt,
   {| statistics_store := statistics_store w;
      service_store := <[l := s]> (service_store w);
      trace := trace w;
      http_calls := http_calls w;
      backend_calls := backend_calls w |}).

(** [Statistics()] *)
Definition Statistics_new : M ref := fun w =>
  let r := fresh (dom (statistics_store w)) in
  (Returns r,
   {| statistics_store := <[r := Statistics_default]> (statistics_store w);
      service_store := service_store w;
      trace := trace w;
      http_calls := http_calls w;
      backend_calls := backend_calls w |}).

(** Allocation of a service object. *)
Definition new_service (s : Service) : M ref := fun w =>
  let l := fresh (dom (service_store w)) in
  (Returns l,
   {| statistics_store := statistics_store w;
      service_store := <[l := s]> (service_store w);
      trace := trace w;
      http_calls := http_calls w;
      backend_calls := backend_calls w |}).

(** [DesktopNotificationService()] *)
Definition DesktopNotificationService_new : M ref :=
  new_service DesktopNotificationService.

(** [DiscordNotificationService(webhook_url)]: [__init__] assigns
    [webhook_url] and nothing else. *)
Definition DiscordNotificationService_new (webhook_url : string) : M ref :=
  new_service (DiscordNotificationService webhook_url None).

(** The four [+= 1] on the counters. *)
Definition incr_total_checks (s : Statistics) : Statistics :=
  {| total_checks := total_checks s + 1;
     in_stock_count := in_stock_count s;
     out_of_stock_count := out_of_stock_count s;
     error_count := error_count s |}.

Definition incr_in_stock_count (s : Statistics) : Statistics :=
  {| total_checks := total_checks s;
     in_stock_count := in_stock_count s + 1;
     out_of_stock_count := out_of_stock_count s;
     error_count := error_count s |}.

Definition incr_out_of_stock_count (s : Statistics) : Statistics :=
  {| total_checks := total_checks s;
     in_stock_count := in_stock_count s;
     out_of_stock_count := out_of_stock_count s + 1;
     error_count := error_count s |}.

Definition incr_error_count (s : Statistics) : Statistics :=
  {| total_checks := total_checks s;
     in_stock_count := in_stock_count s;
     out_of_stock_count := out_of_stock_count s;
     error_count := error_count s + 1 |}.

(** [obj.field += 1] on the statistics object at [r]. *)
Definition update_statistics (r : ref) (f : Statistics -> Statistics)
  : M unit :=
  s ← get_statistics r; set_statistics r (f s).

(** ** The script *)

Section Program.

Context (env : Env).

(** [requests.post(url, ...)]: the request goes out and the environment
    decides what comes back. *)
Definition requests_post (url : string) (args : PostArgs) : M Response :=
  fun w =>
    let w' :=
      {| statistics_store := statistics_store w;
         service_store := service_store w;
         trace := trace w ++ [EvPost url args];
         http_calls := S (http_calls w);
         backend_calls := backend_calls w |} in
    match http_reply env (http_calls w) with
    | Responds r => (Returns r, w')
    | TransportError subclass message =>
        (Raises {| exc_class := RequestException subclass;
                   exc_str := message |}, w')
    end.

(** A call into code outside the script that may fail: it performs
    [effects] unless the environment makes it raise. *)
Definition backend_call (effects : list Event) : M unit := fun w =>
  let answer := backend_failure env (backend_calls w) in
  let w' :=
    {| statistics_store := statistics_store w;
       service_store := service_store w;
       trace := trace w ++ match answer with None => effects | Some _ => [] end;
       http_calls := http_calls w;
       backend_calls := S (backend_calls w) |} in
  match answer with
  | None => (Returns tt, w')
  | Some e => (Raises e, w')
  end.

(** [ConsoleLogger.log] *)
Definition log (message : string) (status : NotificationStatus) : M unit :=
  emit (EvLog message status).

(** [Statistics.update_title], on the statistics object at [self] *)
Definition update_title (self : ref) : M unit :=
  s ← get_statistics self;
  emit (EvSystem (Title.title_command (os_name env) s)).

Definition color_map (status : NotificationStatus) : Z :=
  match status with
  | SUCCESS => 65280
  | ERROR => 16711680
  | INFO => 65535
  | WARNING => 16776960
  end.

Definition emoji_map (status : NotificationStatus) : string :=
  match status with
  | SUCCESS => "✅"
  | ERROR => "❌"
  | INFO => "ℹ️"
  | WARNING => "⚠️"
  end.

Definition newline : string := String (ascii_of_nat 10) EmptyString.

Definition statistics_field_value (s : Statistics) : string :=
  "Total Checks: " +:+ str_int (total_checks s) +:+ newline
  +:+ "In Stock Count: " +:+ str_int (in_stock_count s) +:+ newline
  +:+ "Out of Stock Count: " +:+ str_int (out_of_stock_count s) +:+ newline
  +:+ "Error Count: " +:+ str_int (error_count s).

Definition no_statistics_attribute : PyExc :=
  {| exc_class := AttributeError;
     exc_str :=
       "'DiscordNotificationService' object has no attribute 'statistics'" |}.

(** [DesktopNotificationService.send_notification] *)
Definition Desktop_send_notification (title message : string)
    (status : NotificationStatus) : M unit :=
  backend_call [EvPopup title message 10].

(** [DiscordNotificationService.send_notification], on an object with the
    given attributes: the embed is built first, which reads
    [self.statistics]; the post comes last. *)
Definition Discord_send_notification (webhook_url : string)
    (statistics : option ref) (title message : string)
    (status : NotificationStatus) : M unit :=
  let embed_title_ := emoji_map status +:+ " " +:+ title in
  let color := color_map status in
  match statistics with
  | None => raise no_statistics_attribute
  | Some r =>
      s ← get_statistics r;
      let embed :=
        {| embed_title := embed_title_;
           embed_description := message;
           embed_color := color;
           embed_field_name := "Check Statistics";
           embed_field_value := statistics_field_value s;
           embed_field_inline := false |} in
      requests_post webhook_url (WithJson [embed]);;
      mret tt
  end.

(** [service.send_notification(title, message, status)]: dispatch on the
    class of the object at [service]. *)
Definition send_notification (service : ref) (title message : string)
    (status : NotificationStatus) : M unit :=
  obj ← get_service service;
  emit (EvSend service title message status);;
  match obj with
  | DesktopNotificationService =>
      Desktop_send_notification title message status
  | DiscordNotificationService webhook_url statistics =>
      Discord_send_notification webhook_url statistics title message status
  | OtherNotificationService _ => backend_call []
  end.

Record AirUpChecker := {
  product_config : ProductConfig;
  notification_services : list ref;
  statistics : ref;
  headers : list (string * string)
}.

Definition _get_default_headers : list (string * string) :=
  [ ("accept", "text/x-component");
    ("accept-language", "it-IT,it;q=0.8");
    ("cache-control", "no-cache");
    ("content-type", "text/plain;charset=UTF-8");
    ("next-action", "0bcc478922f9079b84673665f217b86d54bdfbb4");
    ("sec-ch-ua",
     dquote +:+ "Brave" +:+ dquote +:+ ";v=" +:+ dquote +:+ "131" +:+ dquote
     +:+ ", " +:+ dquote +:+ "Chromium" +:+ dquote +:+ ";v=" +:+ dquote
     +:+ "131" +:+ dquote +:+ ", " +:+ dquote +:+ "Not_A Brand" +:+ dquote
     +:+ ";v=" +:+ dquote +:+ "24" +:+ dquote);
    ("sec-ch-ua-mobile", "?0");
    ("sec-ch-ua-platform", dquote +:+ "Windows" +:+ dquote);
    ("sec-fetch-dest", "empty");
    ("sec-fetch-mode", "cors");
    ("sec-fetch-site", "same-origin");
    ("sec-gpc", "1") ].

(** The loop of [AirUpChecker.__init__] that shares the statistics object:
    only instances of the Discord class get the attribute. *)
Definition share_statistics (stats : ref) (service : ref) : M unit :=
  obj ← get_service service;
  match obj with
  | DiscordNotificationService webhook_url _ =>
      set_service service (DiscordNotificationService webhook_url (Some stats))
  | _ => mret tt
  end.

(** [AirUpChecker(product_config, notification_services, logger, statistics)] *)
Definition AirUpChecker_init (cfg : ProductConfig) (services : list ref)
    (stats : ref) : M AirUpChecker :=
  for_each (share_statistics stats) services;;
  mret {| product_config := cfg;
          notification_services := services;
          statistics := stats;
          headers := _get_default_headers |}.

(** The body of the loop of [_notify_all]: one guarded call. *)
Definition notify_one (title message : string) (status : NotificationStatus)
    (service : ref) : M unit :=
  try_except
    (send_notification service title message status)
    is_Exception
    (fun e =>
       obj ← get_service service;
       log ("Error sending notification via " +:+ class_name_of obj +:+ ": "
            +:+ exc_str e) ERROR).

Definition _notify_all (self : AirUpChecker) (title message : string)
    (status : NotificationStatus) : M unit :=
  for_each (notify_one title message status) (notification_services self).

Definition check_availability (self : AirUpChecker) : M bool :=
  update_statistics (statistics self) incr_total_checks;;
  try_except
    (response ← requests_post (url (product_config self))
                  (WithData (headers self)
                     (_get_request_body (product_config self)));
     if status_code response =? 200 then
       if contains "OUT_OF_STOCK" (text response) then
         update_statistics (statistics self) incr_out_of_stock_count;;
         log "Still out of stock..." WARNING;;
         update_title (statistics self);;
         mret false
       else
         update_statistics (statistics self) incr_in_stock_count;;
         log "IN STOCK! Sending notifications..." SUCCESS;;
         _notify_all self "AirUp Charcoal Grey Bottle Available!"
           "The classic AirUp bottle in Charcoal Grey is now in stock. Go buy it!"
           SUCCESS;;
         update_title (statistics self);;
         mret true
     else
       update_statistics (statistics self) incr_error_count;;
       log ("Unexpected status code: " +:+ str_int (status_code response))
         ERROR;;
       update_title (statistics self);;
       mret false)
    is_RequestException
    (fun e =>
       update_statistics (statistics self) incr_error_count;;
       log ("Error checking availability: " +:+ exc_str e) ERROR;;
       update_title (statistics self);;
       mret false).

(** How a bounded run of the loop of [main] ends: the loop was left through
    [break], or it is still going when the bound is reached. *)
Inductive LoopStatus := Stopped | StillRunning.

(** The [while True] loop of [main], run for at most [fuel] iterations. *)
Fixpoint main_loop (checker : AirUpChecker) (fuel : nat) : M LoopStatus :=
  match fuel with
  | O => mret StillRunning
  | S fuel' =>
      in_stock ← check_availability checker;
      if in_stock : bool then
        log "Stopping script as item is in stock." SUCCESS;;
        mret Stopped
      else
        log "Waiting 5 minutes before the next check..." INFO;;
        emit (EvPrint EmptyString);;
        emit (EvSleep 300);;
        main_loop checker fuel'
  end.

Definition main_product_config : ProductConfig :=
  {| url := "https://shop.air-up.com/it/en/bottles/classic/bottle-tritan-650ml-charcoal-grey-us";
     cart_id := "your_cart_id_here";
     bottle_handle := "bottle-tritan-650ml-charcoal-grey-us";
     flavor_handle := "3-pod-variety-pack-vivid-vibes-udb";
     country := "it";
     language := "en" |}.

(** [main], with its loop bounded by [fuel]. *)
Definition main (fuel : nat) : M LoopStatus :=
  emit (EvSystem (if String.eqb (os_name env) "nt" then "cls" else "clear"));;
  stats ← Statistics_new;
  update_title stats;;
  desktop ← DesktopNotificationService_new;
  discord ← DiscordNotificationService_new "your_webhook_link_here";
  checker ← AirUpChecker_init main_product_config [desktop; discord] stats;
  log "Starting availability checker for AirUp Charcoal Grey bottle..." INFO;;
  main_loop checker fuel.

(** The [send_notification] calls recorded in a stretch of trace. *)
Definition calls_received (evs : list Event)
  : list (ref * string * string * NotificationStatus) :=
  omap (fun ev =>
          match ev with
          | EvSend l title message status => Some (l, title, message, status)
          | _ => None
          end) evs.

(** The durations of the sleeps in a stretch of trace. *)
Definition sleeps (evs : list Event) : list Z :=
  omap (fun ev =>
          match ev with
          | EvSleep seconds => Some seconds
          | _ => None
          end) evs.

(** The error lines logged in a stretch of trace. *)
Definition error_lines (evs : list Event) : list string :=
  omap (fun ev =>
          match ev with
          | EvLog message ERROR => Some message
          | _ => None
          end) evs.

(** The requests sent in a stretch of trace. *)
Definition posts (evs : list Event) : list (string * PostArgs) :=
  omap (fun ev =>
          match ev with
          | EvPost url args => Some (url, args)
          | _ => None
          end) evs.

(** An answer of the endpoint that means "in stock". *)
Definition in_stock_reply (o : HttpOutcome) : bool :=
  match o with
  | Responds r =>
      (status_code r =? 200) && negb (contains "OUT_OF_STOCK" (text r))
  | TransportError _ _ => false
  end.

End Program.

(** ** Vocabulary for the statements *)

(** The world after more events and more answers consumed, objects
    untouched. *)
Definition advance (w : World) (evs : list Event) (hc bc : nat) : World :=
  {| statistics_store := statistics_store w;
     service_store := service_store w;
     trace := trace w ++ evs;
     http_calls := hc + http_calls w;
     backend_calls := bc + backend_calls w |}.

(** The world with the statistics object at [r] replaced. *)
Definition with_statistics (w : World) (r : ref) (s : Statistics) : World :=
  {| statistics_store := <[r := s]> (statistics_store w);
     service_store := service_store w;
     trace := trace w;
     http_calls := http_calls w;
     backend_calls := backend_calls w |}.

(** The services at the references [ls] exist, and the statistics they point
    to exist. *)
Definition services_ok (w : World) (ls : list ref) : Prop :=
  forall l, In l ls ->
    exists obj, service_store w !! l = Some obj /\
      forall u r, obj = DiscordNotificationService u (Some r) ->
                  is_Some (statistics_store w !! r).

(** The request a check sends. *)
Definition check_request (self : AirUpChecker) : Event :=
  EvPost (url (product_config self))
    (WithData (headers self) (_get_request_body (product_config self))).

Definition in_stock_title : string := "AirUp Charcoal Grey Bottle Available!".
Definition in_stock_message : string :=
  "The classic AirUp bottle in Charcoal Grey is now in stock. Go buy it!".

(** The error line [_notify_all] logs for a failed backend. *)
Definition notify_error_line (obj : Service) (e : PyExc) : string :=
  "Error sending notification via " +:+ class_name_of obj +:+ ": "
  +:+ exc_str e.

(** [n] calls of [check_availability] in a row, whatever they return. *)
Fixpoint check_repeatedly (env : Env) (self : AirUpChecker) (n : nat)
  : M (list bool) :=
  match n with
  | O => mret []
  | S n' =>
      b ← check_availability env self;
      bs ← check_repeatedly env self n';
      mret (b :: bs)
  end.

(** The fan-out as the specification words it: every backend is called, in
    registration order; a call that returns is followed by the next one; a
    call that raises is followed by one logged error line and then by the
    next one. [fan_out t m st ls w w'] relates the world before the first
    call to the world after the last. *)
Inductive fan_out (env : Env) (title message : string)
    (status : NotificationStatus) : list ref -> World -> World -> Prop :=
| fan_out_done w : fan_out env title message status [] w w
| fan_out_returned l ls w w1 w' :
    send_notification env l title message status w = (Returns tt, w1) ->
    fan_out env title message status ls w1 w' ->
    fan_out env title message status (l :: ls) w w'
| fan_out_raised l ls w e w1 obj w' :
    send_notification env l title message status w = (Raises e, w1) ->
    service_store w1 !! l = Some obj ->
    fan_out env title message status ls
      (advance w1 [EvLog (notify_error_line obj e) ERROR] 0 0) w' ->
    fan_out env title message status (l :: ls) w w'.

(** A stretch of trace without calls into backends, sleeps, or error
    lines. *)
Definition quiet (evs : list Event) : Prop :=
  calls_received evs = [] /\ sleeps evs = [] /\ error_lines evs = [].


(** ** A concrete scenario *)

Module Scenario.

(** A checker over a desktop and a Discord backend, both registered, with
    fresh statistics. *)
Definition checker : AirUpChecker :=
  {| product_config := main_product_config;
     notification_services := [0%nat; 1%nat];
     statistics := 0%nat;
     headers := _get_default_headers |}.

(** The world after [k] HTTP calls. *)
Definition world (k : nat) : World :=
  {| statistics_store := <[0%nat := Statistics_default]> ∅;
     service_store :=
       <[0%nat := DesktopNotificationService]>
         (<[1%nat := DiscordNotificationService "hook" (Some 0%nat)]> ∅);
     trace := [];
     http_calls := k;
     backend_calls := 0 |}.

(** An endpoint that answers, in turn: out of stock, a refused connection,
    a server error, and from then on in stock; backends that work. *)
Definition env : Env :=
  {| os_name := "posix";
     http_reply := fun n =>
       match n with
       | 0%nat => Responds {| status_code := 200;
                              text := "{state:OUT_OF_STOCK}" |}
       | 1%nat => TransportError "ConnectionError" "connection refused"
       | 2%nat => Responds {| status_code := 500; text := EmptyString |}
       | _ => Responds {| status_code := 200; text := "{state:AVAILABLE}" |}
       end;
     backend_failure := fun _ => None |}.

(** An endpoint that answers in stock to the first call, while every
    backend is broken and every later HTTP call fails. *)
Definition failing_env : Env :=
  {| os_name := "nt";
     http_reply := fun n =>
       match n with
       | 0%nat => Responds {| status_code := 200; text := "[]" |}
       | _ => TransportError "MissingSchema" "Invalid URL"
       end;
     backend_failure := fun _ =>
       Some {| exc_class := OtherException "NotImplementedError";
               exc_str := "No usable implementation found!" |} |}.

End Scenario.

(** A computation that leaves every service object as it is, however it
    ends. *)
Definition keeps_services {A} (m : M A) : Prop :=
  forall w, service_store (snd (m w)) = service_store w.

(** Every backend is broken and every HTTP call from the [h]-th on fails. *)
Definition all_backends_fail (env : Env) (h : nat) : Prop :=
  (forall n, is_Some (backend_failure env n)) /\
  (forall n, (h <= n)%nat ->
     exists subclass message,
       http_reply env n = TransportError subclass message).

(** A configuration whose cart identifier holds double quotes. *)
Definition quoting_config : ProductConfig :=
  {| url := "https://shop.example/api";
     cart_id := "x" +:+ dquote +:+ "," +:+ dquote +:+ "extra" +:+ dquote
                +:+ ":" +:+ dquote +:+ "y";
     bottle_handle := "bottle";
     flavor_handle := "flavor";
     country := "it";
     language := "en" |}.

(** ** Further vocabulary *)

(** What the chain of replacements of line 44 does to one character, read
    off the order in which the replacements are written: the carets put in
    front of a parenthesis or an exclamation mark are doubled by the fourth
    replacement, as is a caret of the title itself. *)
Definition escape_char_as_written (c : ascii) : string :=
  if existsb (Ascii.eqb c) ["("; ")"; "!"]%char then String "^" (String "^" (String c EmptyString))
  else if Ascii.eqb c "^" then "^^"
  else if existsb (Ascii.eqb c) ["&"; "|"; "<"; ">"]%char then String "^" (String c EmptyString)
  else String c EmptyString.

Fixpoint escape_as_written (s : string) : string :=
  match s with
  | EmptyString => EmptyString
  | String c s' => escape_char_as_written c +:+ escape_as_written s'
  end.

(** Characters that would end or alter the quoted argument of the
    [echo -en '...'] command: the single quote, the backslash, and control
    characters. *)
Definition breaks_quoting (c : ascii) : bool :=
  Ascii.eqb c "'" || Ascii.eqb c backslash_char || (N_of_ascii c <? 32)%N.

(** The embed of lines 85-100, for the statistics [s] read at the call. *)
Definition discord_embed (title message : string)
    (status : NotificationStatus) (s : Statistics) : Embed :=
  {| embed_title := emoji_map status +:+ " " +:+ title;
     embed_description := message;
     embed_color := color_map status;
     embed_field_name := "Check Statistics";
     embed_field_value := statistics_field_value s;
     embed_field_inline := false |}.

(** The request the service at [l] sends when it is notified in world [w]:
    a Discord service with a statistics attribute posts one embed to its
    webhook; no other service posts. *)
Definition webhook_post (w : World) (title message : string)
    (status : NotificationStatus) (l : ref) : option (string * PostArgs) :=
  match service_store w !! l with
  | Some (DiscordNotificationService u (Some r)) =>
      match statistics_store w !! r with
      | Some s => Some (u, WithJson [discord_embed title message status s])
      | None => None
      end
  | _ => None
  end.

(** The check request, as a pair of URL and arguments. *)
Definition check_post (self : AirUpChecker) : string * PostArgs :=
  (url (product_config self),
   WithData (headers self) (_get_request_body (product_config self))).

(** A checker with another list of services. *)
Definition with_services (self : AirUpChecker) (ls : list ref)
  : AirUpChecker :=
  {| product_config := product_config self;
     notification_services := ls;
     statistics := statistics self;
     headers := headers self |}.

(** The checker and the world [main] has built when it enters its loop. *)
Definition main_checker : AirUpChecker :=
  {| product_config := main_product_config;
     notification_services := [0%nat; 1%nat];
     statistics := 0%nat;
     headers := _get_default_headers |}.

Definition main_world (env : Env) : World :=
  snd ((emit (EvSystem (if String.eqb (os_name env) "nt"
                        then "cls" else "clear"));;
        stats ← Statistics_new;
        update_title env stats;;
        desktop ← DesktopNotificationService_new;
        discord ← DiscordNotificationService_new "your_webhook_link_here";
        checker ← AirUpChecker_init main_product_config [desktop; discord]
                    stats;
        log "Starting availability checker for AirUp Charcoal Grey bottle..."
          INFO) empty_world).

(** How many of the returned values are true. *)
Fixpoint count_true (bs : list bool) : nat :=
  match bs with
  | [] => 0
  | b :: bs' => (if b then 1 else 0) + count_true bs'
  end.
(** ** Facts about strings *)

Section StringFacts.

Lemma append_cons (x : ascii) (a b : string) :
  String x a +:+ b = String x (a +:+ b).
Proof. reflexivity. Qed.

Lemma append_nil_l (a : string) : EmptyString +:+ a = a.
Proof. reflexivity. Qed.

Lemma append_assoc (a b c : string) : (a +:+ b) +:+ c = a +:+ (b +:+ c).
Proof.
  induction a as [|x a IH]; [reflexivity |].
  rewrite !append_cons. now rewrite IH.
Qed.

Lemma length_append (a b : string) :
  String.length (a +:+ b) = (String.length a + String.length b)%nat.
Proof.
  induction a as [|x a IH]; [reflexivity |].
  rewrite append_cons. cbn [String.length]. now rewrite IH.
Qed.

Lemma append_nil_r (a : string) : a +:+ EmptyString = a.
Proof.
  induction a as [|x a IH]; [reflexivity |].
  rewrite append_cons. now rewrite IH.
Qed.

Lemma all_chars_app p (a b : string) :
  all_chars p (a +:+ b) = all_chars p a && all_chars p b.
Proof.
  induction a as [|x a IH]; [reflexivity |].
  rewrite append_cons. simpl. rewrite IH. now rewrite andb_assoc.
Qed.

Lemma all_chars_weaken (p q : ascii -> bool) (s : string) :
  (forall c, p c = true -> q c = true) ->
  all_chars p s = true -> all_chars q s = true.
Proof.
  intros Hpq. induction s as [|c s IH]; simpl; [reflexivity |].
  intros H. apply andb_true_iff in H as [Hc Hs].
  apply andb_true_iff. split; [now apply Hpq | now apply IH].
Qed.

(** Replacing a one-character pattern works character by character. *)
Lemma replace_char_cons (a : ascii) (new : string) (c : ascii) (s : string) :
  replace (String a EmptyString) new (String c s) =
  if Ascii.eqb a c then new +:+ replace (String a EmptyString) new s
  else String c (replace (String a EmptyString) new s).
Proof.
  unfold replace. simpl.
  destruct (ascii_dec a c) as [->|Hne].
  - rewrite Ascii.eqb_refl. destruct s; reflexivity.
  - apply Ascii.eqb_neq in Hne. rewrite Hne. reflexivity.
Qed.

Lemma replace_char_nil (a : ascii) (new : string) :
  replace (String a EmptyString) new EmptyString = EmptyString.
Proof. reflexivity. Qed.

Lemma replace_char_app (a : ascii) (new s t : string) :
  replace (String a EmptyString) new (s +:+ t) =
  replace (String a EmptyString) new s +:+ replace (String a EmptyString) new t.
Proof.
  induction s as [|c s IH].
  - reflexivity.
  - rewrite append_cons, !replace_char_cons, IH.
    destruct (Ascii.eqb a c); [now rewrite append_assoc | reflexivity].
Qed.

End StringFacts.

(** ** The title escaping *)

Section TitleFacts.
Import Title.

Lemma escape_app (s t : string) : escape (s +:+ t) = escape s +:+ escape t.
Proof. unfold escape. now rewrite !replace_char_app. Qed.

(** On one character that none of the first four replacements touches, the
    chain of replacements prefixes a caret exactly when the character is
    special. *)
Lemma escape_one (c : ascii) :
  early c = false -> escape (String c EmptyString) = caret_prefixed (String c EmptyString).
Proof.
  destruct c as [[] [] [] [] [] [] [] []]; intros H;
    solve [ reflexivity | discriminate H ].
Qed.

Lemma escape_late (t : string) :
  all_chars (fun c => negb (early c)) t = true ->
  escape t = caret_prefixed t.
Proof.
  induction t as [|c t IH]; [reflexivity |].
  cbn [all_chars]. intros H. apply andb_true_iff in H as [Hc Ht].
  apply negb_true_iff in Hc.
  change (String c t) with (String c EmptyString +:+ t) at 1.
  rewrite escape_app, (escape_one c Hc), (IH Ht).
  cbn [caret_prefixed]. destruct (special c); reflexivity.
Qed.

Lemma caret_prefixed_app (s t : string) :
  caret_prefixed (s +:+ t) = caret_prefixed s +:+ caret_prefixed t.
Proof.
  induction s as [|c s IH]; [reflexivity |].
  rewrite append_cons. cbn [caret_prefixed]. rewrite IH.
  destruct (special c); reflexivity.
Qed.

Lemma caret_prefixed_plain (t : string) :
  all_chars (fun c => negb (special c)) t = true -> caret_prefixed t = t.
Proof.
  induction t as [|c t IH]; [reflexivity |].
  cbn [all_chars caret_prefixed]. intros H.
  apply andb_true_iff in H as [Hc Ht]. apply negb_true_iff in Hc.
  rewrite Hc. now rewrite IH.
Qed.

Lemma string_of_uint_numeral (d : Decimal.uint) :
  all_chars numeral_char (NilEmpty.string_of_uint d) = true.
Proof. induction d; simpl; auto. Qed.

Lemma str_int_numeral (n : Z) : all_chars numeral_char (str_int n) = true.
Proof.
  unfold str_int, NilZero.string_of_int, NilZero.string_of_uint.
  destruct (Z.to_int n) as [d|d]; destruct d; try reflexivity;
    simpl; apply string_of_uint_numeral.
Qed.

Lemma numeral_not_special (c : ascii) :
  numeral_char c = true -> negb (special c) = true.
Proof.
  destruct c as [[] [] [] [] [] [] [] []]; intros H;
    solve [ reflexivity | discriminate H ].
Qed.

Lemma numeral_not_early (c : ascii) :
  numeral_char c = true -> negb (early c) = true.
Proof.
  destruct c as [[] [] [] [] [] [] [] []]; intros H;
    solve [ reflexivity | discriminate H ].
Qed.

Lemma raw_title_late (s : Statistics) :
  all_chars (fun c => negb (early c)) (raw_title s) = true.
Proof.
  unfold raw_title. rewrite !all_chars_app.
  rewrite !(all_chars_weaken numeral_char _ _ numeral_not_early
              (str_int_numeral _)).
  reflexivity.
Qed.

End TitleFacts.

(** ** Running computations *)

Section MonadFacts.

Lemma bind_run {A B} (m : M A) (f : A -> M B) (w : World) :
  (m ≫= f) w =
  match m w with
  | (Returns a, w') => f a w'
  | (Raises e, w') => (Raises e, w')
  | (Fault, w') => (Fault, w')
  end.
Proof. reflexivity. Qed.

Lemma bind_returns {A B} (m : M A) (f : A -> M B) w a w' :
  m w = (Returns a, w') -> (m ≫= f) w = f a w'.
Proof. intros H. now rewrite bind_run, H. Qed.

Lemma bind_raises {A B} (m : M A) (f : A -> M B) w e w' :
  m w = (Raises e, w') -> (m ≫= f) w = (Raises e, w').
Proof. intros H. now rewrite bind_run, H. Qed.

Lemma ret_run {A} (a : A) (w : World) : (mret a : M A) w = (Returns a, w).
Proof. reflexivity. Qed.

Lemma try_returns {A} (body : M A) caught handler w a w' :
  body w = (Returns a, w') ->
  try_except body caught handler w = (Returns a, w').
Proof. intros H. unfold try_except. now rewrite H. Qed.

Lemma try_caught {A} (body : M A) caught handler w e w' :
  body w = (Raises e, w') -> caught e = true ->
  try_except body caught handler w = handler e w'.
Proof. intros H Hc. unfold try_except. now rewrite H, Hc. Qed.

Lemma advance_nothing (w : World) : advance w [] 0 0 = w.
Proof. destruct w. unfold advance. simpl. now rewrite app_nil_r. Qed.

Lemma advance_advance w e1 h1 b1 e2 h2 b2 :
  advance (advance w e1 h1 b1) e2 h2 b2 =
  advance w (e1 ++ e2) (h2 + h1) (b2 + b1).
Proof.
  unfold advance. simpl. f_equal; [now rewrite app_assoc | lia | lia].
Qed.

Lemma advance_with_statistics w r s evs hc bc :
  advance (with_statistics w r s) evs hc bc =
  with_statistics (advance w evs hc bc) r s.
Proof. reflexivity. Qed.

Lemma emit_run (e : Event) (w : World) :
  emit e w = (Returns tt, advance w [e] 0 0).
Proof. reflexivity. Qed.

Lemma get_statistics_run r s w :
  statistics_store w !! r = Some s -> get_statistics r w = (Returns s, w).
Proof. intros H. unfold get_statistics. now rewrite H. Qed.

Lemma update_statistics_run r f s w :
  statistics_store w !! r = Some s ->
  update_statistics r f w = (Returns tt, with_statistics w r (f s)).
Proof.
  intros H. unfold update_statistics.
  now rewrite (bind_returns _ _ _ _ _ (get_statistics_run _ _ _ H)).
Qed.

Lemma get_service_run l obj w :
  service_store w !! l = Some obj -> get_service l w = (Returns obj, w).
Proof. intros H. unfold get_service. now rewrite H. Qed.

Lemma with_statistics_lookup w r s :
  statistics_store (with_statistics w r s) !! r = Some s.
Proof. apply lookup_insert_eq. Qed.

Lemma with_statistics_twice w r s s' :
  with_statistics (with_statistics w r s) r s' = with_statistics w r s'.
Proof. unfold with_statistics. simpl. now rewrite insert_insert_eq. Qed.

Lemma with_statistics_some w r s r' :
  is_Some (statistics_store w !! r') ->
  is_Some (statistics_store (with_statistics w r s) !! r').
Proof.
  intros H. unfold with_statistics. simpl.
  apply lookup_insert_is_Some. destruct (decide (r = r')); auto.
Qed.

Lemma services_ok_advance w ls evs hc bc :
  services_ok w ls -> services_ok (advance w evs hc bc) ls.
Proof. intros H. exact H. Qed.

Lemma services_ok_with_statistics w ls r s :
  services_ok w ls -> services_ok (with_statistics w r s) ls.
Proof.
  intros H l Hl. destruct (H l Hl) as (obj & Hobj & Hst).
  exists obj. split; [exact Hobj |].
  intros u r' E. apply with_statistics_some. eapply Hst, E.
Qed.

End MonadFacts.

Section LibraryFacts.

Context (env : Env).

Lemma log_run message status w :
  log message status w = (Returns tt, advance w [EvLog message status] 0 0).
Proof. reflexivity. Qed.

Lemma update_title_run r s w :
  statistics_store w !! r = Some s ->
  update_title env r w =
  (Returns tt, advance w [EvSystem (Title.title_command (os_name env) s)] 0 0).
Proof.
  intros H. unfold update_title.
  now rewrite (bind_returns _ _ _ _ _ (get_statistics_run _ _ _ H)).
Qed.

Lemma requests_post_run url args w :
  requests_post env url args w =
  (match http_reply env (http_calls w) with
   | Responds r => Returns r
   | TransportError c m =>
       Raises {| exc_class := RequestException c; exc_str := m |}
   end, advance w [EvPost url args] 1 0).
Proof. unfold requests_post. destruct (http_reply env (http_calls w)); reflexivity. Qed.

Lemma backend_call_run effects w :
  backend_call env effects w =
  match backend_failure env (backend_calls w) with
  | None => (Returns tt, advance w effects 0 1)
  | Some e => (Raises e, advance w [] 0 1)
  end.
Proof. unfold backend_call. destruct (backend_failure env (backend_calls w)); reflexivity. Qed.

End LibraryFacts.

(** ** The notification fan-out *)

Section NotifyFacts.

Context (env : Env).

Lemma calls_received_app evs1 evs2 :
  calls_received (evs1 ++ evs2) = calls_received evs1 ++ calls_received evs2.
Proof. apply omap_app. Qed.

Lemma sleeps_app evs1 evs2 : sleeps (evs1 ++ evs2) = sleeps evs1 ++ sleeps evs2.
Proof. apply omap_app. Qed.

Lemma error_lines_app evs1 evs2 :
  error_lines (evs1 ++ evs2) = error_lines evs1 ++ error_lines evs2.
Proof. apply omap_app. Qed.

(** One [send_notification]: the call is recorded, then the backend runs;
    the objects in the store are left as they are, and the call returns or
    raises. *)
Lemma send_notification_run l obj t m st w :
  service_store w !! l = Some obj ->
  (forall u r, obj = DiscordNotificationService u (Some r) ->
               is_Some (statistics_store w !! r)) ->
  exists out evs hc bc,
    send_notification env l t m st w =
      (out, advance w (EvSend l t m st :: evs) hc bc) /\
    out <> Fault /\ quiet evs /\
    (out = Returns tt ->
     backend_failure env (backend_calls w) = None \/
     exists resp, http_reply env (http_calls w) = Responds resp).
Proof.
  intros Hobj Hst. unfold send_notification.
  rewrite (bind_returns _ _ _ _ _ (get_service_run _ _ _ Hobj)).
  rewrite (bind_returns _ _ _ _ _ (emit_run _ _)).
  destruct obj as [|u [r|]|name].
  - unfold Desktop_send_notification. rewrite backend_call_run.
    change (backend_calls (advance w [EvSend l t m st] 0 0))
      with (backend_calls w).
    destruct (backend_failure env (backend_calls w)) as [e|] eqn:Hb;
      rewrite advance_advance.
    + exists (Raises e), [], 0%nat, 1%nat. repeat split; done.
    + exists (Returns tt), [EvPopup t m 10], 0%nat, 1%nat.
      repeat split; auto; done.
  - destruct (Hst u r eq_refl) as [s Hs].
    unfold Discord_send_notification. cbv zeta.
    erewrite bind_returns by (apply get_statistics_run; exact Hs).
    rewrite bind_run, requests_post_run, advance_advance.
    change (http_calls (advance w [EvSend l t m st] 0 0)) with (http_calls w).
    destruct (http_reply env (http_calls w)) as [resp|c msg] eqn:Hh.
    + eexists (Returns tt), [_], 1%nat, 0%nat. rewrite ret_run.
      repeat split; eauto; done.
    + eexists (Raises _), [_], 1%nat, 0%nat. repeat split; done.
  - unfold Discord_send_notification, raise.
    exists (Raises no_statistics_attribute), [], 0%nat, 0%nat.
    repeat split; done.
  - rewrite backend_call_run.
    change (backend_calls (advance w [EvSend l t m st] 0 0))
      with (backend_calls w).
    destruct (backend_failure env (backend_calls w)) as [e|] eqn:Hb;
      rewrite advance_advance.
    + exists (Raises e), [], 0%nat, 1%nat. repeat split; done.
    + exists (Returns tt), [], 0%nat, 1%nat. repeat split; auto; done.
Qed.

(** A raised exception is caught and logged by the guard around the call. *)
Lemma notify_one_catches t m st l w e w1 obj :
  send_notification env l t m st w = (Raises e, w1) ->
  service_store w1 !! l = Some obj ->
  notify_one env t m st l w =
    (Returns tt, advance w1 [EvLog (notify_error_line obj e) ERROR] 0 0).
Proof.
  intros Hsend Hobj. unfold notify_one.
  rewrite (try_caught _ _ _ _ _ _ Hsend eq_refl).
  now rewrite (bind_returns _ _ _ _ _ (get_service_run _ _ _ Hobj)).
Qed.

Lemma notify_one_returns t m st l w w1 :
  send_notification env l t m st w = (Returns tt, w1) ->
  notify_one env t m st l w = (Returns tt, w1).
Proof. intros Hsend. unfold notify_one. now apply try_returns. Qed.

(** The guarded call never raises; it adds the call and at most one error
    line to the trace. *)
Lemma notify_one_run l obj t m st w :
  service_store w !! l = Some obj ->
  (forall u r, obj = DiscordNotificationService u (Some r) ->
               is_Some (statistics_store w !! r)) ->
  exists evs hc bc,
    notify_one env t m st l w =
      (Returns tt, advance w (EvSend l t m st :: evs) hc bc) /\
    calls_received evs = [] /\ sleeps evs = [] /\
    fan_out env t m st [l] w (advance w (EvSend l t m st :: evs) hc bc).
Proof.
  intros Hobj Hst.
  destruct (send_notification_run l obj t m st w Hobj Hst)
    as (out & evs & hc & bc & Hrun & Hout & (Hc & Hs & He) & _).
  destruct out as [[]|e|]; [| |congruence].
  - exists evs, hc, bc. rewrite (notify_one_returns _ _ _ _ _ _ Hrun).
    repeat split; auto.
    eapply fan_out_returned; [exact Hrun | constructor].
  - exists (evs ++ [EvLog (notify_error_line obj e) ERROR]), hc, bc.
    assert (Hobj1 : service_store (advance w (EvSend l t m st :: evs) hc bc)
                      !! l = Some obj) by exact Hobj.
    rewrite (notify_one_catches _ _ _ _ _ _ _ _ Hrun Hobj1).
    rewrite advance_advance. simpl.
    rewrite calls_received_app, sleeps_app, Hc, Hs.
    repeat split; auto.
    eapply fan_out_raised; [exact Hrun | exact Hobj1 |].
    rewrite advance_advance. simpl. constructor.
Qed.

Lemma fan_out_app t m st ls1 ls2 w w1 w2 :
  fan_out env t m st ls1 w w1 -> fan_out env t m st ls2 w1 w2 ->
  fan_out env t m st (ls1 ++ ls2) w w2.
Proof.
  induction 1 as [| l ls w wa wb Hsend _ IH | l ls w e wa obj wb Hsend Hobj _ IH];
    intros H2; simpl.
  - exact H2.
  - eapply fan_out_returned; eauto.
  - eapply fan_out_raised; eauto.
Qed.

(** The whole fan-out: it returns, having called every service once, in
    the order of the list. *)
Lemma notify_all_run t m st ls w :
  services_ok w ls ->
  exists evs hc bc,
    for_each (notify_one env t m st) ls w = (Returns tt, advance w evs hc bc) /\
    calls_received evs = map (fun l => (l, t, m, st)) ls /\
    sleeps evs = [] /\
    fan_out env t m st ls w (advance w evs hc bc).
Proof.
  revert w. induction ls as [|l ls IH]; intros w Hok.
  - exists [], 0%nat, 0%nat. rewrite advance_nothing.
    repeat split; constructor.
  - destruct (Hok l (or_introl eq_refl)) as (obj & Hobj & Hst).
    destruct (notify_one_run l obj t m st w Hobj Hst)
      as (evs1 & hc1 & bc1 & Hrun1 & Hc1 & Hs1 & Hfan1).
    set (w1 := advance w (EvSend l t m st :: evs1) hc1 bc1) in *.
    assert (Hok1 : services_ok w1 ls).
    { apply services_ok_advance. intros l' Hl'. apply Hok. now right. }
    destruct (IH w1 Hok1) as (evs2 & hc2 & bc2 & Hrun2 & Hc2 & Hs2 & Hfan2).
    exists ((EvSend l t m st :: evs1) ++ evs2), (hc2 + hc1)%nat, (bc2 + bc1)%nat.
    cbn [for_each]. rewrite (bind_returns _ _ _ _ _ Hrun1), Hrun2.
    unfold w1 in *. rewrite advance_advance in *.
    repeat split.
    + rewrite calls_received_app.
      change (calls_received (EvSend l t m st :: evs1))
        with ((l, t, m, st) :: calls_received evs1).
      now rewrite Hc1, Hc2.
    + rewrite sleeps_app.
      change (sleeps (EvSend l t m st :: evs1)) with (sleeps evs1).
      now rewrite Hs1, Hs2.
    + change (l :: ls) with ([l] ++ ls). eapply fan_out_app; eauto.
Qed.

End NotifyFacts.

(** ** One availability check *)

Ltac norm_world :=
  repeat (rewrite advance_with_statistics || rewrite with_statistics_twice
          || rewrite advance_advance).

Ltac stats_lookup := first [ eassumption | apply with_statistics_lookup ].

Ltac run_step :=
  first
    [ erewrite bind_returns by (apply update_statistics_run; stats_lookup)
    | erewrite bind_returns by apply log_run
    | erewrite bind_returns by apply emit_run
    | erewrite bind_returns by (apply update_title_run; stats_lookup)
    | rewrite ret_run ];
  norm_world.

Section CheckFacts.

Context (env : Env).

Lemma services_ok_frame w w' ls :
  service_store w' = service_store w ->
  (forall r, is_Some (statistics_store w !! r) ->
             is_Some (statistics_store w' !! r)) ->
  services_ok w ls -> services_ok w' ls.
Proof.
  intros Hsv Hst Hok l Hl. destruct (Hok l Hl) as (obj & Hobj & Hr).
  exists obj. rewrite Hsv. split; [exact Hobj |].
  intros u r E. apply Hst. eapply Hr, E.
Qed.

(** Status 200 with the marker. *)
Lemma check_out_of_stock self w s resp :
  statistics_store w !! statistics self = Some s ->
  http_reply env (http_calls w) = Responds resp ->
  status_code resp = 200 ->
  contains "OUT_OF_STOCK" (text resp) = true ->
  check_availability env self w =
    (Returns false,
     with_statistics
       (advance w
          [check_request self; EvLog "Still out of stock..." WARNING;
           EvSystem (Title.title_command (os_name env)
                       (incr_out_of_stock_count (incr_total_checks s)))] 1 0)
       (statistics self) (incr_out_of_stock_count (incr_total_checks s))).
Proof.
  intros Hs Hreply H200 Hmark. unfold check_availability.
  run_step. apply try_returns.
  rewrite bind_run, requests_post_run. cbn [http_calls with_statistics].
  rewrite Hreply, H200, Hmark. cbn [Z.eqb Pos.eqb]. norm_world.
  do 3 run_step. run_step. reflexivity.
Qed.

(** A status other than 200. *)
Lemma check_unexpected_status self w s resp :
  statistics_store w !! statistics self = Some s ->
  http_reply env (http_calls w) = Responds resp ->
  status_code resp <> 200 ->
  check_availability env self w =
    (Returns false,
     with_statistics
       (advance w
          [check_request self;
           EvLog ("Unexpected status code: " +:+ str_int (status_code resp))
             ERROR;
           EvSystem (Title.title_command (os_name env)
                       (incr_error_count (incr_total_checks s)))] 1 0)
       (statistics self) (incr_error_count (incr_total_checks s))).
Proof.
  intros Hs Hreply Hne. unfold check_availability.
  run_step. apply try_returns.
  rewrite bind_run, requests_post_run. cbn [http_calls with_statistics].
  rewrite Hreply. apply Z.eqb_neq in Hne. rewrite Hne. norm_world.
  do 3 run_step. run_step. reflexivity.
Qed.

(** A transport-level error raised by the HTTP call. *)
Lemma check_transport_error self w s subclass message :
  statistics_store w !! statistics self = Some s ->
  http_reply env (http_calls w) = TransportError subclass message ->
  check_availability env self w =
    (Returns false,
     with_statistics
       (advance w
          [check_request self;
           EvLog ("Error checking availability: " +:+ message) ERROR;
           EvSystem (Title.title_command (os_name env)
                       (incr_error_count (incr_total_checks s)))] 1 0)
       (statistics self) (incr_error_count (incr_total_checks s))).
Proof.
  intros Hs Hreply. unfold check_availability.
  run_step.
  erewrite try_caught; cycle 1.
  - rewrite bind_run, requests_post_run. cbn [http_calls with_statistics].
    rewrite Hreply. reflexivity.
  - reflexivity.
  - cbn [exc_str]. norm_world. do 3 run_step. run_step. reflexivity.
Qed.

(** Status 200 without the marker. *)
Lemma check_in_stock self w s resp :
  statistics_store w !! statistics self = Some s ->
  services_ok w (notification_services self) ->
  http_reply env (http_calls w) = Responds resp ->
  status_code resp = 200 ->
  contains "OUT_OF_STOCK" (text resp) = false ->
  let s' := incr_in_stock_count (incr_total_checks s) in
  let before := [check_request self;
                 EvLog "IN STOCK! Sending notifications..." SUCCESS] in
  exists evs hc bc,
    check_availability env self w =
      (Returns true,
       with_statistics
         (advance w
            (before ++ evs ++
             [EvSystem (Title.title_command (os_name env) s')]) (S hc) bc)
         (statistics self) s') /\
    calls_received evs =
      map (fun l => (l, in_stock_title, in_stock_message, SUCCESS))
        (notification_services self) /\
    sleeps evs = [] /\
    fan_out env in_stock_title in_stock_message SUCCESS
      (notification_services self)
      (with_statistics (advance w before 1 0) (statistics self) s')
      (with_statistics (advance w (before ++ evs) (S hc) bc)
         (statistics self) s').
Proof.
  intros Hs Hok Hreply H200 Hmark s' before.
  set (w1 := with_statistics (advance w before 1 0) (statistics self) s').
  assert (Hok1 : services_ok w1 (notification_services self)).
  { unfold w1. apply services_ok_with_statistics, services_ok_advance, Hok. }
  destruct (notify_all_run env in_stock_title in_stock_message SUCCESS
              _ w1 Hok1) as (evs & hc & bc & Hrun & Hc & Hsl & Hfan).
  exists evs, hc, bc.
  assert (Hw2 : advance w1 evs hc bc =
                with_statistics (advance w (before ++ evs) (S hc) bc)
                  (statistics self) s').
  { unfold w1. norm_world. now rewrite Nat.add_1_r, Nat.add_0_r. }
  rewrite Hw2 in Hrun, Hfan.
  split; [| now repeat split].
  unfold check_availability.
  run_step. apply try_returns.
  rewrite bind_run, requests_post_run. cbn [http_calls with_statistics].
  rewrite Hreply, H200, Hmark. cbn [Z.eqb Pos.eqb]. norm_world.
  do 2 run_step.
  unfold _notify_all. fold in_stock_title in_stock_message.
  fold s' before w1.
  rewrite (bind_returns _ _ _ _ _ Hrun).
  do 2 run_step. now rewrite <- app_assoc.
Qed.

End CheckFacts.

Section CheckCases.

Context (env : Env).

(** Whatever the endpoint answers, a check returns, and it returns whether
    the answer means "in stock"; it counts the check and exactly one
    outcome. A check that is not in stock makes one HTTP call and reaches no
    backend. *)
Lemma check_availability_cases self w s :
  statistics_store w !! statistics self = Some s ->
  services_ok w (notification_services self) ->
  exists b s' evs hc bc,
    check_availability env self w =
      (Returns b,
       with_statistics (advance w evs (S hc) bc) (statistics self) s') /\
    b = in_stock_reply (http_reply env (http_calls w)) /\
    sleeps evs = [] /\
    ((b = true /\ s' = incr_in_stock_count (incr_total_checks s)) \/
     (b = false /\ hc = 0%nat /\ calls_received evs = [] /\
      (s' = incr_out_of_stock_count (incr_total_checks s) \/
       s' = incr_error_count (incr_total_checks s)))).
Proof.
  intros Hs Hok.
  destruct (http_reply env (http_calls w)) as [resp|subclass message] eqn:Hreply.
  - destruct (Z.eq_dec (status_code resp) 200) as [H200|Hne].
    + destruct (contains "OUT_OF_STOCK" (text resp)) eqn:Hmark.
      * rewrite (check_out_of_stock env self w s resp Hs Hreply H200 Hmark).
        eexists false, _, _, 0%nat, 0%nat. split; [reflexivity |].
        unfold in_stock_reply. rewrite H200, Hmark.
        repeat split. right. repeat split. now left.
      * destruct (check_in_stock env self w s resp Hs Hok Hreply H200 Hmark)
          as (evs & hc & bc & Hrun & _ & Hsl & _).
        eexists true, _, _, hc, bc. split; [exact Hrun |].
        unfold in_stock_reply. rewrite H200, Hmark.
        split; [reflexivity |]. split; [| now left].
        rewrite !sleeps_app, Hsl. reflexivity.
    + rewrite (check_unexpected_status env self w s resp Hs Hreply Hne).
      eexists false, _, _, 0%nat, 0%nat. split; [reflexivity |].
      unfold in_stock_reply. apply Z.eqb_neq in Hne. rewrite Hne.
      repeat split. right. repeat split. now right.
  - rewrite (check_transport_error env self w s _ _ Hs Hreply).
    eexists false, _, _, 0%nat, 0%nat. split; [reflexivity |].
    repeat split. right. repeat split. now right.
Qed.

End CheckCases.

(** ** Who writes the service objects *)

Section KeepsServices.

Context (env : Env).

Lemma keeps_ret {A} (a : A) : keeps_services (mret a : M A).
Proof. intros w. reflexivity. Qed.

Lemma keeps_raise {A} e : keeps_services (raise e : M A).
Proof. intros w. reflexivity. Qed.

Lemma keeps_bind {A B} (m : M A) (f : A -> M B) :
  keeps_services m -> (forall a, keeps_services (f a)) ->
  keeps_services (m ≫= f).
Proof.
  intros Hm Hf w. rewrite bind_run. specialize (Hm w).
  destruct (m w) as [[a|e|] w1]; simpl in *; [| exact Hm | exact Hm].
  now rewrite (Hf a w1).
Qed.

Lemma keeps_try {A} (body : M A) caught handler :
  keeps_services body -> (forall e, keeps_services (handler e)) ->
  keeps_services (try_except body caught handler).
Proof.
  intros Hb Hh w. unfold try_except. specialize (Hb w).
  destruct (body w) as [[a|e|] w1]; simpl in *; [exact Hb | | exact Hb].
  destruct (caught e); [| exact Hb]. now rewrite (Hh e w1).
Qed.

Lemma keeps_for_each {A} (body : A -> M unit) (xs : list A) :
  (forall x, keeps_services (body x)) -> keeps_services (for_each body xs).
Proof.
  intros Hb. induction xs as [|x xs IH]; [apply keeps_ret |].
  cbn [for_each]. apply keeps_bind; [apply Hb | intros _; exact IH].
Qed.

Lemma keeps_emit e : keeps_services (emit e).
Proof. intros w. reflexivity. Qed.

Lemma keeps_get_statistics r : keeps_services (get_statistics r).
Proof. intros w. unfold get_statistics. now destruct (_ !! _). Qed.

Lemma keeps_get_service l : keeps_services (get_service l).
Proof. intros w. unfold get_service. now destruct (_ !! _). Qed.

Lemma keeps_update_statistics r f : keeps_services (update_statistics r f).
Proof.
  apply keeps_bind; [apply keeps_get_statistics |]. intros s w. reflexivity.
Qed.

Lemma keeps_update_title r : keeps_services (update_title env r).
Proof.
  apply keeps_bind; [apply keeps_get_statistics |]. intros s. apply keeps_emit.
Qed.

Lemma keeps_requests_post url args : keeps_services (requests_post env url args).
Proof. intros w. rewrite requests_post_run. reflexivity. Qed.

Lemma keeps_backend_call effects : keeps_services (backend_call env effects).
Proof.
  intros w. rewrite backend_call_run. now destruct (backend_failure env _).
Qed.

Lemma keeps_send_notification l t m st :
  keeps_services (send_notification env l t m st).
Proof.
  apply keeps_bind; [apply keeps_get_service |]. intros obj.
  apply keeps_bind; [apply keeps_emit |]. intros _.
  destruct obj as [|u [r|]|name].
  - apply keeps_backend_call.
  - apply keeps_bind; [apply keeps_get_statistics |]. intros s.
    apply keeps_bind; [apply keeps_requests_post |]. intros _. apply keeps_ret.
  - apply keeps_raise.
  - apply keeps_backend_call.
Qed.

Lemma keeps_notify_all self t m st : keeps_services (_notify_all env self t m st).
Proof.
  apply keeps_for_each. intros l. apply keeps_try.
  - apply keeps_send_notification.
  - intros e. apply keeps_bind; [apply keeps_get_service |].
    intros obj. apply keeps_emit.
Qed.

Lemma keeps_check_availability self :
  keeps_services (check_availability env self).
Proof.
  apply keeps_bind; [apply keeps_update_statistics |]. intros _.
  apply keeps_try.
  - apply keeps_bind; [apply keeps_requests_post |]. intros resp.
    destruct (status_code resp =? 200);
      [destruct (contains "OUT_OF_STOCK" (text resp)) |];
      repeat (apply keeps_bind;
              [ first [ apply keeps_update_statistics | apply keeps_emit
                      | apply keeps_update_title | apply keeps_notify_all ]
              | intros _ ]);
      apply keeps_ret.
  - intros e.
    repeat (apply keeps_bind;
            [ first [ apply keeps_update_statistics | apply keeps_emit
                    | apply keeps_update_title ]
            | intros _ ]);
    apply keeps_ret.
Qed.

Lemma keeps_main_loop checker fuel : keeps_services (main_loop env checker fuel).
Proof.
  induction fuel as [|fuel IH]; [apply keeps_ret |].
  cbn [main_loop]. apply keeps_bind; [apply keeps_check_availability |].
  intros [|].
  - apply keeps_bind; [apply keeps_emit | intros _; apply keeps_ret].
  - repeat (apply keeps_bind; [apply keeps_emit | intros _]). exact IH.
Qed.

(** The constructor leaves the [statistics] attribute unset, on a fresh
    object. *)
Lemma Discord_new_run webhook_url w :
  let l := fresh (dom (service_store w)) in
  DiscordNotificationService_new webhook_url w =
    (Returns l,
     {| statistics_store := statistics_store w;
        service_store :=
          <[l := DiscordNotificationService webhook_url None]> (service_store w);
        trace := trace w;
        http_calls := http_calls w;
        backend_calls := backend_calls w |}) /\
  service_store w !! l = None.
Proof.
  split; [reflexivity |]. apply not_elem_of_dom, is_fresh.
Qed.

(** The sharing loop of [__init__] touches only Discord objects of its
    list, and gives each of them the attribute. *)
Lemma share_statistics_frame st ls w out w' :
  for_each (share_statistics st) ls w = (out, w') ->
  statistics_store w' = statistics_store w /\
  trace w' = trace w /\
  forall l,
    service_store w' !! l = service_store w !! l \/
    (In l ls /\ exists u o,
       service_store w !! l = Some (DiscordNotificationService u o) /\
       service_store w' !! l = Some (DiscordNotificationService u (Some st))).
Proof.
  revert w. induction ls as [|x ls IH]; intros w Hrun.
  - cbn [for_each] in Hrun. rewrite ret_run in Hrun. inversion Hrun; subst.
    repeat split. intros l. now left.
  - cbn [for_each] in Hrun. rewrite bind_run in Hrun.
    unfold share_statistics in Hrun at 1. rewrite bind_run in Hrun.
    unfold get_service in Hrun at 1.
    destruct (service_store w !! x) as [obj|] eqn:Hx.
    2:{ inversion Hrun; subst. repeat split. intros l. now left. }
    destruct obj as [|u o|name].
    + rewrite ret_run in Hrun. destruct (IH w Hrun) as (H1 & H2 & H3).
      repeat split; auto. intros l. destruct (H3 l) as [E|(Hin & R)];
        [now left | right; split; [now right | exact R]].
    + set (w1 := {| statistics_store := statistics_store w;
                    service_store :=
                      <[x := DiscordNotificationService u (Some st)]>
                        (service_store w);
                    trace := trace w; http_calls := http_calls w;
                    backend_calls := backend_calls w |}).
      change (for_each (share_statistics st) ls w1 = (out, w')) in Hrun.
      destruct (IH w1 Hrun) as (H1 & H2 & H3).
      repeat split; auto. intros l.
      destruct (decide (x = l)) as [->|Hne].
      * right. split; [now left |]. exists u, o. split; [exact Hx |].
        destruct (H3 l) as [E|(_ & u' & o' & E1 & E2)].
        -- rewrite E. apply lookup_insert_eq.
        -- unfold w1 in E1. simpl in E1. rewrite lookup_insert_eq in E1.
           inversion E1; subst. exact E2.
      * destruct (H3 l) as [E|(Hin & u' & o' & E1 & E2)].
        -- left. rewrite E. unfold w1. simpl. now rewrite lookup_insert_ne.
        -- right. split; [now right |]. exists u', o'.
           unfold w1 in E1. simpl in E1. rewrite lookup_insert_ne in E1 by done.
           now split.
    + rewrite ret_run in Hrun. destruct (IH w Hrun) as (H1 & H2 & H3).
      repeat split; auto. intros l. destruct (H3 l) as [E|(Hin & R)];
        [now left | right; split; [now right | exact R]].
Qed.

Lemma AirUpChecker_init_frame cfg ls st w out w' :
  AirUpChecker_init cfg ls st w = (out, w') ->
  statistics_store w' = statistics_store w /\
  trace w' = trace w /\
  forall l,
    service_store w' !! l = service_store w !! l \/
    (In l ls /\ exists u o,
       service_store w !! l = Some (DiscordNotificationService u o) /\
       service_store w' !! l = Some (DiscordNotificationService u (Some st))).
Proof.
  unfold AirUpChecker_init. rewrite bind_run.
  destruct (for_each (share_statistics st) ls w) as [[[]|e|] w1] eqn:Hloop;
    intros Hrun; [rewrite ret_run in Hrun | |]; inversion Hrun; subst;
    exact (share_statistics_frame st ls w _ _ Hloop).
Qed.

(** A Discord object without the attribute: the call is received, building
    the embed raises, nothing is posted. *)
Lemma send_without_statistics l u t m st w :
  service_store w !! l = Some (DiscordNotificationService u None) ->
  send_notification env l t m st w =
    (Raises no_statistics_attribute, advance w [EvSend l t m st] 0 0).
Proof.
  intros Hl. unfold send_notification.
  erewrite bind_returns by (apply get_service_run; exact Hl).
  erewrite bind_returns by apply emit_run.
  reflexivity.
Qed.

End KeepsServices.

Section InitAndFailures.

Context (env : Env).

Lemma share_statistics_run st ls w :
  (forall l, In l ls -> is_Some (service_store w !! l)) ->
  exists w',
    for_each (share_statistics st) ls w = (Returns tt, w') /\
    forall l, In l ls -> forall u o,
      service_store w !! l = Some (DiscordNotificationService u o) ->
      service_store w' !! l = Some (DiscordNotificationService u (Some st)).
Proof.
  revert w. induction ls as [|x ls IH]; intros w Hall.
  - exists w. split; [reflexivity |]. intros l [].
  - destruct (Hall x (or_introl eq_refl)) as [obj Hx].
    assert (Hstep : exists w1,
      share_statistics st x w = (Returns tt, w1) /\
      (forall l, is_Some (service_store w !! l) ->
                 is_Some (service_store w1 !! l)) /\
      (forall l u o,
         service_store w !! l = Some (DiscordNotificationService u o) ->
         (l = x /\
          service_store w1 !! l =
            Some (DiscordNotificationService u (Some st))) \/
         (l <> x /\
          service_store w1 !! l = Some (DiscordNotificationService u o)))).
    { unfold share_statistics.
      erewrite bind_returns by (apply get_service_run; exact Hx).
      destruct obj as [|u o|name].
      - exists w. split; [reflexivity |]. split; [auto |].
        intros l u o Hl. right. split; [congruence | exact Hl].
      - eexists. split; [reflexivity |]. simpl. split.
        + intros l Hl. apply lookup_insert_is_Some.
          destruct (decide (x = l)); auto.
        + intros l u' o' Hl. destruct (decide (l = x)) as [->|Hne].
          * left. split; [reflexivity |]. rewrite lookup_insert_eq.
            congruence.
          * right. split; [exact Hne |]. now rewrite lookup_insert_ne.
      - exists w. split; [reflexivity |]. split; [auto |].
        intros l u o Hl. right. split; [congruence | exact Hl]. }
    destruct Hstep as (w1 & Hrun1 & Hkeep & Hset).
    destruct (IH w1) as (w' & Hrun & Hrest).
    { intros l Hl. apply Hkeep, Hall. now right. }
    exists w'. cbn [for_each]. rewrite (bind_returns _ _ _ _ _ Hrun1).
    split; [exact Hrun |].
    intros l Hl u o Hobj.
    destruct (share_statistics_frame st ls w1 _ _ Hrun) as (_ & _ & Hframe).
    destruct (Hset l u o Hobj) as [[-> H1] | [Hne H1]].
    + destruct (Hframe x) as [E | (_ & u' & o' & E1 & E2)].
      * now rewrite E.
      * rewrite E1 in H1. inversion H1; subst. exact E2.
    + destruct Hl as [->|Hl]; [congruence |].
      exact (Hrest l Hl u o H1).
Qed.

(** What a [send_notification] that did not fault has done. *)
Lemma send_notification_inv l t m st w out w1 :
  send_notification env l t m st w = (out, w1) ->
  out <> Fault ->
  exists obj evs hc bc,
    service_store w !! l = Some obj /\
    w1 = advance w (EvSend l t m st :: evs) hc bc /\
    quiet evs /\
    (out = Returns tt ->
     backend_failure env (backend_calls w) = None \/
     exists resp, http_reply env (http_calls w) = Responds resp).
Proof.
  intros Hrun Hout.
  destruct (service_store w !! l) as [obj|] eqn:Hl.
  2:{ unfold send_notification in Hrun. rewrite bind_run in Hrun.
      unfold get_service in Hrun at 1. rewrite Hl in Hrun.
      inversion Hrun; congruence. }
  assert (Hst : forall u r, obj = DiscordNotificationService u (Some r) ->
                            is_Some (statistics_store w !! r)).
  { intros u r ->. destruct (statistics_store w !! r) as [s|] eqn:Hr; [eauto |].
    exfalso. unfold send_notification in Hrun.
    erewrite bind_returns in Hrun by (apply get_service_run; exact Hl).
    erewrite bind_returns in Hrun by apply emit_run.
    unfold Discord_send_notification in Hrun. cbv zeta in Hrun.
    rewrite bind_run in Hrun. unfold get_statistics in Hrun at 1.
    change (statistics_store (advance w [EvSend l t m st] 0 0))
      with (statistics_store w) in Hrun.
    rewrite Hr in Hrun. inversion Hrun; congruence. }
  destruct (send_notification_run env l obj t m st w Hl Hst)
    as (out' & evs & hc & bc & Hrun' & _ & Hquiet & Hret).
  rewrite Hrun' in Hrun. inversion Hrun; subst.
  now exists obj, evs, hc, bc.
Qed.

(** When every backend is broken, the fan-out logs one error line per
    registered service. *)
Lemma fan_out_all_fail t m st h ls w w' :
  all_backends_fail env h ->
  fan_out env t m st ls w w' ->
  (h <= http_calls w)%nat ->
  exists evs,
    trace w' = trace w ++ evs /\
    length (error_lines evs) = length ls.
Proof.
  intros [Hb Hh].
  induction 1 as [w| l ls w wa wb Hsend _ IH | l ls w e wa obj wb Hsend Hobj _ IH];
    intros Hle.
  - exists []. now rewrite app_nil_r.
  - exfalso.
    destruct (send_notification_inv _ _ _ _ _ _ _ Hsend)
      as (obj & evs & hc & bc & _ & _ & _ & Hret); [discriminate |].
    destruct (Hret eq_refl) as [Hnone | [resp Hresp]].
    + destruct (Hb (backend_calls w)) as [e He]. congruence.
    + destruct (Hh (http_calls w) Hle) as (c & msg & Hc). congruence.
  - destruct (send_notification_inv _ _ _ _ _ _ _ Hsend)
      as (obj' & evs & hc & bc & _ & -> & (_ & _ & Hquiet) & _);
      [discriminate |].
    destruct IH as (evs2 & Htr & Hlen).
    { cbn [http_calls advance]. lia. }
    exists ((EvSend l t m st :: evs)
            ++ [EvLog (notify_error_line obj e) ERROR] ++ evs2).
    split.
    + rewrite Htr. cbn [trace advance]. now rewrite <- !app_assoc.
    + rewrite !error_lines_app.
      change (error_lines (EvSend l t m st :: evs)) with (error_lines evs).
      rewrite Hquiet, !length_app, Hlen. reflexivity.
Qed.

End InitAndFailures.

(** ** The polling loop *)

Section LoopFacts.

Context (env : Env).

Lemma with_statistics_same w r s :
  statistics_store w !! r = Some s ->
  with_statistics (advance w [] 0 0) r s = w.
Proof.
  intros H. rewrite advance_nothing. destruct w as [ss sv tr hc bc].
  unfold with_statistics. simpl in *. now rewrite insert_id.
Qed.

(** The first [n] answers either are all "not in stock", or have a first
    "in stock" among them. *)
Lemma first_true (p : nat -> bool) (n : nat) :
  (forall i, (i < n)%nat -> p i = false) \/
  (exists k, (k < n)%nat /\ p k = true /\
             forall i, (i < k)%nat -> p i = false).
Proof.
  induction n as [|n [IH | (k & Hk & Hp & Hfirst)]].
  - left. intros i Hi. lia.
  - destruct (p n) eqn:Hn.
    + right. exists n. repeat split; [lia | exact Hn | exact IH].
    + left. intros i Hi. destruct (decide (i = n)) as [->|Hne];
        [exact Hn | apply IH; lia].
  - right. exists k. repeat split; [lia | exact Hp | exact Hfirst].
Qed.

(** A check answered "not in stock": one HTTP call, no backend, no sleep,
    one more check counted and no in-stock outcome. *)
Lemma check_not_in_stock self w s :
  statistics_store w !! statistics self = Some s ->
  services_ok w (notification_services self) ->
  in_stock_reply (http_reply env (http_calls w)) = false ->
  exists evs s',
    check_availability env self w =
      (Returns false,
       with_statistics (advance w evs 1 0) (statistics self) s') /\
    sleeps evs = [] /\
    total_checks s' = total_checks s + 1 /\
    in_stock_count s' = in_stock_count s.
Proof.
  intros Hs Hok Hreply.
  destruct (check_availability_cases env self w s Hs Hok)
    as (b & s' & evs & hc & bc & Hrun & Hb & Hsl & Hcases).
  rewrite Hreply in Hb. subst b.
  destruct Hcases as [[Hb _] | (_ & -> & _ & Hs')]; [discriminate |].
  exists evs, s'.
  assert (Hbc : advance w evs 1 bc = advance w evs 1 0).
  { (* a check without notification makes no backend call *)
    destruct (http_reply env (http_calls w)) as [resp|c m] eqn:Hr.
    - destruct (Z.eq_dec (status_code resp) 200) as [H200|Hne].
      + unfold in_stock_reply in Hreply. rewrite H200 in Hreply.
        apply negb_false_iff in Hreply.
        rewrite (check_out_of_stock env self w s resp Hs Hr H200 Hreply)
          in Hrun.
        inversion Hrun as [[He Hh Hbc]].
        unfold advance. f_equal. lia.
      + rewrite (check_unexpected_status env self w s resp Hs Hr Hne) in Hrun.
        inversion Hrun as [[He Hh Hbc]].
        unfold advance. f_equal. lia.
    - rewrite (check_transport_error env self w s _ _ Hs Hr) in Hrun.
      inversion Hrun as [[He Hh Hbc]].
      unfold advance. f_equal. lia. }
  rewrite Hbc in Hrun. split; [exact Hrun |]. split; [exact Hsl |].
  destruct Hs' as [-> | ->]; simpl; lia.
Qed.

(** [k] answers "not in stock" in a row: the loop goes through [k]
    iterations, each with one check and one sleep of 300 seconds, and
    carries on with the fuel that is left. *)
Lemma main_loop_waiting self k :
  forall w s,
    statistics_store w !! statistics self = Some s ->
    services_ok w (notification_services self) ->
    (forall i, (i < k)%nat ->
       in_stock_reply (http_reply env (http_calls w + i)) = false) ->
    exists evs s',
      (forall fuel,
         main_loop env self (k + fuel) w =
         main_loop env self fuel
           (with_statistics (advance w evs k 0) (statistics self) s')) /\
      sleeps evs = repeat 300 k /\
      total_checks s' = total_checks s + Z.of_nat k /\
      in_stock_count s' = in_stock_count s.
Proof.
  induction k as [|k IH]; intros w s Hs Hok Hnot.
  - exists [], s. rewrite (with_statistics_same w _ s Hs).
    repeat split; simpl; lia.
  - assert (H0 : in_stock_reply (http_reply env (http_calls w)) = false).
    { rewrite <- (Nat.add_0_r (http_calls w)). apply Hnot. lia. }
    destruct (check_not_in_stock self w s Hs Hok H0)
      as (evs1 & s1 & Hrun1 & Hsl1 & Ht1 & Hi1).
    set (tail := [EvLog "Waiting 5 minutes before the next check..." INFO;
                  EvPrint EmptyString; EvSleep 300]).
    set (w1 := with_statistics (advance w (evs1 ++ tail) 1 0)
                 (statistics self) s1).
    destruct (IH w1 s1) as (evs2 & s2 & Hrun2 & Hsl2 & Ht2 & Hi2).
    { apply with_statistics_lookup. }
    { apply services_ok_with_statistics, services_ok_advance, Hok. }
    { intros i Hi. cbn [http_calls with_statistics advance w1].
      replace (1 + http_calls w + i)%nat with (http_calls w + S i)%nat by lia.
      apply Hnot. lia. }
    exists ((evs1 ++ tail) ++ evs2), s2. split; [| split; [| split]].
    + intros fuel. cbn [Nat.add main_loop].
      rewrite (bind_returns _ _ _ _ _ Hrun1).
      unfold log. do 3 run_step. rewrite <- !app_assoc.
      change (main_loop env self (k + fuel) w1 =
              main_loop env self fuel
                (with_statistics (advance w (evs1 ++ tail ++ evs2) (S k) 0)
                   (statistics self) s2)).
      rewrite (Hrun2 fuel). unfold w1. norm_world. rewrite <- app_assoc.
      now rewrite Nat.add_1_r, Nat.add_0_r.
    + rewrite !sleeps_app, Hsl1, Hsl2. reflexivity.
    + lia.
    + lia.
Qed.

End LoopFacts.

Section LoopEnd.

Context (env : Env).

Lemma in_stock_reply_true o :
  in_stock_reply o = true ->
  exists resp, o = Responds resp /\ status_code resp = 200 /\
               contains "OUT_OF_STOCK" (text resp) = false.
Proof.
  destruct o as [resp|c m]; [| discriminate]. unfold in_stock_reply.
  intros H. apply andb_true_iff in H as [H200 Hmark].
  exists resp. split; [reflexivity |].
  split; [now apply Z.eqb_eq | now apply negb_true_iff].
Qed.

(** An iteration whose check is answered "in stock" ends the loop: the
    check, the last log line, nothing more, whatever fuel is left. *)
Lemma main_loop_stopping self w s :
  statistics_store w !! statistics self = Some s ->
  services_ok w (notification_services self) ->
  in_stock_reply (http_reply env (http_calls w)) = true ->
  exists w' evs s',
    (forall fuel, main_loop env self (S fuel) w = (Returns Stopped, w')) /\
    trace w' = trace w ++ evs /\
    sleeps evs = [] /\
    last evs = Some (EvLog "Stopping script as item is in stock." SUCCESS) /\
    statistics_store w' !! statistics self = Some s' /\
    total_checks s' = total_checks s + 1 /\
    in_stock_count s' = in_stock_count s + 1.
Proof.
  intros Hs Hok Hreply.
  destruct (in_stock_reply_true _ Hreply) as (resp & Hr & H200 & Hmark).
  destruct (check_in_stock env self w s resp Hs Hok Hr H200 Hmark)
    as (evs & hc & bc & Hrun & _ & Hsl & _).
  eexists _, _, _. split; [| split; [| split; [| split; [| split]]]].
  - intros fuel. cbn [main_loop]. rewrite (bind_returns _ _ _ _ _ Hrun).
    unfold log. run_step. rewrite ret_run. reflexivity.
  - reflexivity.
  - rewrite !sleeps_app, Hsl. reflexivity.
  - apply last_snoc.
  - apply with_statistics_lookup.
  - simpl. lia.
Qed.

End LoopEnd.

(** ** Reading the request body back *)

Section JsonFacts.
Import Json.

Lemma json_plain_char_inv c :
  json_plain_char c = true ->
  Ascii.eqb c dquote_char = false /\ Ascii.eqb c backslash_char = false /\
  (N_of_ascii c <? 32)%N = false.
Proof.
  unfold json_plain_char. intros H.
  apply andb_true_iff in H as [H H3]. apply andb_true_iff in H as [H1 H2].
  now rewrite negb_true_iff in H1, H2, H3.
Qed.

(** A string without quote, backslash or control character is read back as
    it is, up to the closing quote. *)
Lemma string_body_plain s rest :
  json_plain s = true ->
  string_body (s +:+ String dquote_char rest) = Some (s, rest).
Proof.
  induction s as [|c s IH]; intros Hplain.
  - rewrite append_nil_l. cbn [string_body]. now rewrite Ascii.eqb_refl.
  - unfold json_plain in Hplain. cbn [all_chars] in Hplain.
    apply andb_true_iff in Hplain as [Hc Hs].
    destruct (json_plain_char_inv c Hc) as (H1 & H2 & H3).
    rewrite append_cons. cbn [string_body]. rewrite H1, H2, H3.
    now rewrite (IH Hs).
Qed.

Lemma plain_not_ws_free (c : ascii) (r : string) :
  is_ws c = false -> skip_ws (String c r) = String c r.
Proof. intros H. cbn [skip_ws]. now rewrite H. Qed.

(** A quoted plain string is a string value. *)
Lemma value_plain_string fuel s rest :
  json_plain s = true ->
  value (S fuel) (String dquote_char (s +:+ String dquote_char rest)) =
    Some (JString s, rest).
Proof.
  intros Hplain. cbn [value].
  rewrite (plain_not_ws_free dquote_char _ eq_refl).
  change (Ascii.eqb dquote_char "[") with false.
  change (Ascii.eqb dquote_char "{") with false.
  rewrite Ascii.eqb_refl. cbv iota.
  now rewrite (string_body_plain s rest Hplain).
Qed.

(** One member ["key":"v"] followed by a comma: the object goes on. *)
Lemma members_plain_more fuel key v rest acc :
  json_plain key = true -> json_plain v = true ->
  members (S (S fuel))
    (String dquote_char (key +:+ String dquote_char (String ":"
       (String dquote_char (v +:+ String dquote_char (String "," rest))))))
    acc =
  members (S fuel) rest ((key, JString v) :: acc).
Proof.
  intros Hkey Hv.
  change (members (S (S fuel)) ?s acc) with
    (match skip_ws s with
     | String c r =>
         if Ascii.eqb c dquote_char then
           match string_body r with
           | None => None
           | Some (key, r1) =>
               match skip_ws r1 with
               | String ":" r2 =>
                   match value (S fuel) r2 with
                   | None => None
                   | Some (v, r3) =>
                       match skip_ws r3 with
                       | String "," r4 => members (S fuel) r4 ((key, v) :: acc)
                       | String "}" r4 =>
                           Some (JObject (rev ((key, v) :: acc)), r4)
                       | _ => None
                       end
                   end
               | _ => None
               end
           end
         else None
     | EmptyString => None
     end).
  rewrite (plain_not_ws_free dquote_char _ eq_refl), Ascii.eqb_refl.
  rewrite (string_body_plain key _ Hkey).
  rewrite (plain_not_ws_free ":" _ eq_refl).
  rewrite (value_plain_string fuel v _ Hv).
  rewrite (plain_not_ws_free "," _ eq_refl).
  reflexivity.
Qed.

(** One member followed by the closing brace: the object is complete. *)
Lemma members_plain_last fuel key v rest acc :
  json_plain key = true -> json_plain v = true ->
  members (S (S fuel))
    (String dquote_char (key +:+ String dquote_char (String ":"
       (String dquote_char (v +:+ String dquote_char (String "}" rest))))))
    acc =
  Some (JObject (rev ((key, JString v) :: acc)), rest).
Proof.
  intros Hkey Hv.
  change (members (S (S fuel)) ?s acc) with
    (match skip_ws s with
     | String c r =>
         if Ascii.eqb c dquote_char then
           match string_body r with
           | None => None
           | Some (key, r1) =>
               match skip_ws r1 with
               | String ":" r2 =>
                   match value (S fuel) r2 with
                   | None => None
                   | Some (v, r3) =>
                       match skip_ws r3 with
                       | String "," r4 => members (S fuel) r4 ((key, v) :: acc)
                       | String "}" r4 =>
                           Some (JObject (rev ((key, v) :: acc)), r4)
                       | _ => None
                       end
                   end
               | _ => None
               end
           end
         else None
     | EmptyString => None
     end).
  rewrite (plain_not_ws_free dquote_char _ eq_refl), Ascii.eqb_refl.
  rewrite (string_body_plain key _ Hkey).
  rewrite (plain_not_ws_free ":" _ eq_refl).
  rewrite (value_plain_string fuel v _ Hv).
  rewrite (plain_not_ws_free "}" _ eq_refl).
  reflexivity.
Qed.

(** The text of the request body, character by character around the five
    interpolated fields. *)
Lemma request_body_shape cfg :
  _get_request_body cfg =
  String "[" (String "{"
   (String dquote_char ("cartId" +:+ String dquote_char (String ":"
     (String dquote_char (cart_id cfg +:+ String dquote_char (String ","
   (String dquote_char ("bottleHandle" +:+ String dquote_char (String ":"
     (String dquote_char (bottle_handle cfg +:+ String dquote_char (String ","
   (String dquote_char ("flavorHandle" +:+ String dquote_char (String ":"
     (String dquote_char (flavor_handle cfg +:+ String dquote_char (String ","
   (String dquote_char ("country" +:+ String dquote_char (String ":"
     (String dquote_char (country cfg +:+ String dquote_char (String ","
   (String dquote_char ("language" +:+ String dquote_char (String ":"
     (String dquote_char (language cfg +:+ String dquote_char (String "}"
   (String "]" EmptyString)))))))))))))))))))))))))))))))).
Proof. reflexivity. Qed.

Lemma value_array_start fuel r :
  value (S fuel) (String "[" (String "{" r)) =
  elements fuel (String "{" r) [].
Proof. reflexivity. Qed.

Lemma value_object_start fuel r :
  value (S fuel) (String "{" (String dquote_char r)) =
  members fuel (String dquote_char r) [].
Proof. reflexivity. Qed.

Lemma elements_single fuel s v :
  value fuel s = Some (v, String "]" EmptyString) ->
  elements (S fuel) s [] = Some (JArray [v], EmptyString).
Proof. intros H. cbn [elements]. rewrite H. reflexivity. Qed.

(** With plain fields and enough fuel, the body reads back as the array of
    one object with the five fields in the order they are written. *)
Lemma value_request_body cfg fuel :
  config_plain cfg = true ->
  value (10 + fuel) (_get_request_body cfg) =
    Some (JArray [JObject
            [ ("cartId", JString (cart_id cfg));
              ("bottleHandle", JString (bottle_handle cfg));
              ("flavorHandle", JString (flavor_handle cfg));
              ("country", JString (country cfg));
              ("language", JString (language cfg)) ]],
          EmptyString).
Proof.
  unfold config_plain. intros H.
  apply andb_true_iff in H as [H H5]. apply andb_true_iff in H as [H H4].
  apply andb_true_iff in H as [H H3]. apply andb_true_iff in H as [H1 H2].
  rewrite request_body_shape.
  cbn [Nat.add].
  rewrite value_array_start. apply elements_single.
  rewrite value_object_start.
  rewrite 4 members_plain_more by (assumption || reflexivity).
  rewrite members_plain_last by (assumption || reflexivity).
  reflexivity.
Qed.

End JsonFacts.

(** * Properties of the script *)

(** Discharges [services_ok] on a concrete world and list. *)
Ltac concrete_services_ok :=
  let l := fresh "l" in
  let H := fresh "H" in
  intros l H; simpl in H;
  repeat (destruct H as [<-|H]; [eexists; split; [reflexivity |];
    let E := fresh "E" in
    intros ? ? E; inversion E; subst; eexists; reflexivity |]);
  destruct H.

(** C1. A check whose HTTP response has status 200 and a body without
    "OUT_OF_STOCK" returns true, adds one to [total_checks] and to
    [in_stock_count] and leaves the other two counters alone, and calls
    [send_notification] with status SUCCESS once on every registered
    backend, in registration order. *)
Theorem check_in_stock_notifies (env : Env) (self : AirUpChecker)
    (w : World) (s : Statistics) (resp : Response) :
  statistics_store w !! statistics self = Some s ->
  services_ok w (notification_services self) ->
  http_reply env (http_calls w) = Responds resp ->
  status_code resp = 200 ->
  contains "OUT_OF_STOCK" (text resp) = false ->
  exists w' evs,
    check_availability env self w = (Returns true, w') /\
    statistics_store w' =
      <[statistics self :=
          {| total_checks := total_checks s + 1;
             in_stock_count := in_stock_count s + 1;
             out_of_stock_count := out_of_stock_count s;
             error_count := error_count s |}]> (statistics_store w) /\
    trace w' = trace w ++ evs /\
    calls_received evs =
      map (fun l => (l, in_stock_title, in_stock_message, SUCCESS))
        (notification_services self).
Proof.
  intros Hs Hok Hreply H200 Hmark.
  destruct (check_in_stock env self w s resp Hs Hok Hreply H200 Hmark)
    as (evs & hc & bc & Hrun & Hcalls & _ & _).
  eexists _, _. split; [exact Hrun |].
  split; [reflexivity |]. split; [reflexivity |].
  rewrite !calls_received_app, Hcalls. unfold check_request. simpl.
  apply app_nil_r.
Qed.

Lemma check_in_stock_notifies_witness :
  exists w' evs,
    check_availability Scenario.env Scenario.checker (Scenario.world 3) =
      (Returns true, w') /\
    statistics_store w' =
      <[0%nat := {| total_checks := 1; in_stock_count := 1;
                    out_of_stock_count := 0; error_count := 0 |}]>
        (statistics_store (Scenario.world 3)) /\
    trace w' = trace (Scenario.world 3) ++ evs /\
    calls_received evs =
      [(0%nat, in_stock_title, in_stock_message, SUCCESS);
       (1%nat, in_stock_title, in_stock_message, SUCCESS)].
Proof.
  apply (check_in_stock_notifies Scenario.env Scenario.checker
           (Scenario.world 3) Statistics_default
           {| status_code := 200; text := "{state:AVAILABLE}" |}).
  - reflexivity.
  - concrete_services_ok.
  - reflexivity.
  - reflexivity.
  - reflexivity.
Defined.

(** C3. A check whose HTTP response has status 200 and a body containing
    "OUT_OF_STOCK" returns false, adds one to [total_checks] and to
    [out_of_stock_count], leaves [in_stock_count] and [error_count] alone,
    and calls no notification backend. *)
Theorem check_out_of_stock_counts (env : Env) (self : AirUpChecker)
    (w : World) (s : Statistics) (resp : Response) :
  statistics_store w !! statistics self = Some s ->
  http_reply env (http_calls w) = Responds resp ->
  status_code resp = 200 ->
  contains "OUT_OF_STOCK" (text resp) = true ->
  exists w' evs,
    check_availability env self w = (Returns false, w') /\
    statistics_store w' =
      <[statistics self :=
          {| total_checks := total_checks s + 1;
             in_stock_count := in_stock_count s;
             out_of_stock_count := out_of_stock_count s + 1;
             error_count := error_count s |}]> (statistics_store w) /\
    trace w' = trace w ++ evs /\
    calls_received evs = [].
Proof.
  intros Hs Hreply H200 Hmark.
  rewrite (check_out_of_stock env self w s resp Hs Hreply H200 Hmark).
  eexists _, _. repeat split.
Qed.

Lemma check_out_of_stock_counts_witness :
  exists w' evs,
    check_availability Scenario.env Scenario.checker (Scenario.world 0) =
      (Returns false, w') /\
    statistics_store w' =
      <[0%nat := {| total_checks := 1; in_stock_count := 0;
                    out_of_stock_count := 1; error_count := 0 |}]>
        (statistics_store (Scenario.world 0)) /\
    trace w' = trace (Scenario.world 0) ++ evs /\
    calls_received evs = [].
Proof.
  apply (check_out_of_stock_counts Scenario.env Scenario.checker
           (Scenario.world 0) Statistics_default
           {| status_code := 200; text := "{state:OUT_OF_STOCK}" |});
    reflexivity.
Defined.

(** C4. A check whose HTTP call raises a transport-level error, or whose
    response has a status other than 200, returns false (it does not
    raise), adds one to [total_checks] and to [error_count], leaves
    [in_stock_count] and [out_of_stock_count] alone, and calls no
    notification backend. *)
Theorem check_error_counts (env : Env) (self : AirUpChecker) (w : World)
    (s : Statistics) :
  statistics_store w !! statistics self = Some s ->
  (exists subclass message,
     http_reply env (http_calls w) = TransportError subclass message) \/
  (exists resp,
     http_reply env (http_calls w) = Responds resp /\ status_code resp <> 200) ->
  exists w' evs,
    check_availability env self w = (Returns false, w') /\
    statistics_store w' =
      <[statistics self :=
          {| total_checks := total_checks s + 1;
             in_stock_count := in_stock_count s;
             out_of_stock_count := out_of_stock_count s;
             error_count := error_count s + 1 |}]> (statistics_store w) /\
    trace w' = trace w ++ evs /\
    calls_received evs = [].
Proof.
  intros Hs [(subclass & message & Hreply) | (resp & Hreply & Hne)].
  - rewrite (check_transport_error env self w s _ _ Hs Hreply).
    eexists _, _. repeat split.
  - rewrite (check_unexpected_status env self w s resp Hs Hreply Hne).
    eexists _, _. repeat split.
Qed.

Lemma check_error_counts_witness :
  (exists w' evs,
     check_availability Scenario.env Scenario.checker (Scenario.world 1) =
       (Returns false, w') /\
     statistics_store w' =
       <[0%nat := {| total_checks := 1; in_stock_count := 0;
                     out_of_stock_count := 0; error_count := 1 |}]>
         (statistics_store (Scenario.world 1)) /\
     trace w' = trace (Scenario.world 1) ++ evs /\
     calls_received evs = []) /\
  (exists w' evs,
     check_availability Scenario.env Scenario.checker (Scenario.world 2) =
       (Returns false, w') /\
     statistics_store w' =
       <[0%nat := {| total_checks := 1; in_stock_count := 0;
                     out_of_stock_count := 0; error_count := 1 |}]>
         (statistics_store (Scenario.world 2)) /\
     trace w' = trace (Scenario.world 2) ++ evs /\
     calls_received evs = []).
Proof.
  split.
  - apply (check_error_counts Scenario.env Scenario.checker
             (Scenario.world 1) Statistics_default); [reflexivity |].
    left. now exists "ConnectionError", "connection refused".
  - apply (check_error_counts Scenario.env Scenario.checker
             (Scenario.world 2) Statistics_default); [reflexivity |].
    right. exists {| status_code := 500; text := EmptyString |}.
    split; [reflexivity | discriminate].
Defined.

(** C2. Every check adds one to [total_checks] and one to exactly one of
    [in_stock_count], [out_of_stock_count], [error_count]. So after [n]
    checks in a row, whatever the endpoint answers, [total_checks] has
    grown by [n] and so has the sum of the three; no counter has shrunk;
    and from zeroed counters [total_checks] is [n], the three add up to it,
    and all four are non-negative. *)
Theorem counters_track_checks (env : Env) (self : AirUpChecker) (w : World)
    (s : Statistics) (n : nat) :
  statistics_store w !! statistics self = Some s ->
  services_ok w (notification_services self) ->
  (exists b w1 s1,
     check_availability env self w = (Returns b, w1) /\
     statistics_store w1 !! statistics self = Some s1 /\
     total_checks s1 = total_checks s + 1 /\
     ((in_stock_count s1 = in_stock_count s + 1 /\
       out_of_stock_count s1 = out_of_stock_count s /\
       error_count s1 = error_count s) \/
      (in_stock_count s1 = in_stock_count s /\
       out_of_stock_count s1 = out_of_stock_count s + 1 /\
       error_count s1 = error_count s) \/
      (in_stock_count s1 = in_stock_count s /\
       out_of_stock_count s1 = out_of_stock_count s /\
       error_count s1 = error_count s + 1))) /\
  (exists bs w' s',
     check_repeatedly env self n w = (Returns bs, w') /\
     length bs = n /\
     statistics_store w' !! statistics self = Some s' /\
     total_checks s' = total_checks s + Z.of_nat n /\
     in_stock_count s' + out_of_stock_count s' + error_count s' =
       in_stock_count s + out_of_stock_count s + error_count s + Z.of_nat n /\
     total_checks s <= total_checks s' /\
     in_stock_count s <= in_stock_count s' /\
     out_of_stock_count s <= out_of_stock_count s' /\
     error_count s <= error_count s' /\
     (s = Statistics_default ->
      total_checks s' = Z.of_nat n /\
      in_stock_count s' + out_of_stock_count s' + error_count s' =
        total_checks s' /\
      0 <= total_checks s' /\ 0 <= in_stock_count s' /\
      0 <= out_of_stock_count s' /\ 0 <= error_count s')).
Proof.
  intros Hs Hok. split.
  - destruct (check_availability_cases env self w s Hs Hok)
      as (b & s' & evs & hc & bc & Hrun & _ & _ & Hcases).
    exists b. eexists _, s'. split; [exact Hrun |].
    split; [apply with_statistics_lookup |].
    destruct Hcases as [[_ ->] | (_ & _ & _ & [-> | ->])]; simpl;
      (split; [reflexivity |]); tauto.
  - revert w s Hs Hok. induction n as [|n IH]; intros w s Hs Hok.
    + exists [], w, s. rewrite Z.add_0_r. cbn [check_repeatedly].
      rewrite ret_run. repeat split; try lia; auto.
      all: subst s; simpl; lia.
    + destruct (check_availability_cases env self w s Hs Hok)
        as (b & s1 & evs & hc & bc & Hrun & _ & _ & Hcases).
      set (w1 := with_statistics (advance w evs (S hc) bc) (statistics self) s1)
        in *.
      assert (Hs1 : statistics_store w1 !! statistics self = Some s1)
        by apply with_statistics_lookup.
      assert (Hok1 : services_ok w1 (notification_services self))
        by (apply services_ok_with_statistics, services_ok_advance, Hok).
      destruct (IH w1 s1 Hs1 Hok1)
        as (bs & w' & s' & Hrep & Hlen & Hs' & Ht & Hsum & Hm1 & Hm2 & Hm3
            & Hm4 & _).
      exists (b :: bs), w', s'. cbn [check_repeatedly].
      rewrite (bind_returns _ _ _ _ _ Hrun).
      rewrite (bind_returns _ _ _ _ _ Hrep), ret_run.
      assert (Hstep :
        total_checks s1 = total_checks s + 1 /\
        in_stock_count s1 + out_of_stock_count s1 + error_count s1 =
          in_stock_count s + out_of_stock_count s + error_count s + 1 /\
        in_stock_count s <= in_stock_count s1 /\
        out_of_stock_count s <= out_of_stock_count s1 /\
        error_count s <= error_count s1).
      { destruct Hcases as [[_ ->] | (_ & _ & _ & [-> | ->])]; simpl; lia. }
      destruct Hstep as (Ht1 & Hsum1 & Hi1 & Ho1 & He1).
      split; [reflexivity |]. split; [simpl; now rewrite Hlen |].
      split; [exact Hs' |].
      repeat split; try lia.
      all: subst s; simpl in *; lia.
Qed.

Lemma counters_track_checks_witness :
  exists bs w' s',
    check_repeatedly Scenario.env Scenario.checker 4 (Scenario.world 0) =
      (Returns bs, w') /\
    statistics_store w' !! 0%nat = Some s' /\
    total_checks s' = 4 /\
    in_stock_count s' + out_of_stock_count s' + error_count s' = 4.
Proof.
  destruct (counters_track_checks Scenario.env Scenario.checker
              (Scenario.world 0) Statistics_default 4)
    as [_ (bs & w' & s' & Hrun & _ & Hs' & _ & _ & _ & _ & _ & _ & Hzero)].
  - reflexivity.
  - concrete_services_ok.
  - exists bs, w', s'. destruct (Hzero eq_refl) as (Ht & Hsum & _).
    split; [exact Hrun |]. split; [exact Hs' |].
    split; [exact Ht |]. rewrite Hsum. exact Ht.
Defined.

(** C5. For every list of registered backends and every title, message and
    status, [_notify_all] returns without raising, having called
    [send_notification] once on each backend in registration order; the
    run is a [fan_out]: a backend that raises has its exception caught and
    an error line logged, and the backends after it are still called. *)
Theorem notify_all_isolates_failures (env : Env) (self : AirUpChecker)
    (title message : string) (status : NotificationStatus) (w : World) :
  services_ok w (notification_services self) ->
  exists w' evs,
    _notify_all env self title message status w = (Returns tt, w') /\
    trace w' = trace w ++ evs /\
    calls_received evs =
      map (fun l => (l, title, message, status)) (notification_services self) /\
    fan_out env title message status (notification_services self) w w'.
Proof.
  intros Hok.
  destruct (notify_all_run env title message status _ w Hok)
    as (evs & hc & bc & Hrun & Hcalls & _ & Hfan).
  exists (advance w evs hc bc), evs. now repeat split.
Qed.

Lemma notify_all_isolates_failures_witness :
  exists w' evs,
    _notify_all Scenario.failing_env Scenario.checker "t" "m" INFO
      (Scenario.world 1) = (Returns tt, w') /\
    trace w' = trace (Scenario.world 1) ++ evs /\
    calls_received evs = [(0%nat, "t", "m", INFO); (1%nat, "t", "m", INFO)] /\
    fan_out Scenario.failing_env "t" "m" INFO [0%nat; 1%nat]
      (Scenario.world 1) w'.
Proof.
  apply (notify_all_isolates_failures Scenario.failing_env Scenario.checker
           "t" "m" INFO (Scenario.world 1)).
  concrete_services_ok.
Defined.

(** In the scenario both backends raise, and both are called: the trace of
    the fan-out is two calls, each followed by its error line. *)
Example notify_all_both_fail :
  trace (snd (_notify_all Scenario.failing_env Scenario.checker "t" "m" INFO
                (Scenario.world 1))) =
  [ EvSend 0 "t" "m" INFO;
    EvLog "Error sending notification via DesktopNotificationService: No usable implementation found!" ERROR;
    EvSend 1 "t" "m" INFO;
    EvPost "hook"
      (WithJson
         [{| embed_title := emoji_map INFO +:+ " t";
             embed_description := "m";
             embed_color := 65535;
             embed_field_name := "Check Statistics";
             embed_field_value :=
               statistics_field_value Statistics_default;
             embed_field_inline := false |}]);
    EvLog "Error sending notification via DiscordNotificationService: Invalid URL" ERROR ].
Proof. vm_compute. reflexivity. Qed.

(** C9. In the in-stock case the check returns true and counts exactly one
    in-stock outcome even when every registered backend raises: each
    backend is called, each failure is logged as one error line, and
    neither the result nor the counters (the error counter included) are
    affected. *)
Theorem check_in_stock_survives_backends (env : Env) (self : AirUpChecker)
    (w : World) (s : Statistics) (resp : Response) :
  statistics_store w !! statistics self = Some s ->
  services_ok w (notification_services self) ->
  http_reply env (http_calls w) = Responds resp ->
  status_code resp = 200 ->
  contains "OUT_OF_STOCK" (text resp) = false ->
  all_backends_fail env (S (http_calls w)) ->
  exists w' evs,
    check_availability env self w = (Returns true, w') /\
    statistics_store w' =
      <[statistics self :=
          {| total_checks := total_checks s + 1;
             in_stock_count := in_stock_count s + 1;
             out_of_stock_count := out_of_stock_count s;
             error_count := error_count s |}]> (statistics_store w) /\
    trace w' = trace w ++ evs /\
    length (calls_received evs) = length (notification_services self) /\
    length (error_lines evs) = length (notification_services self).
Proof.
  intros Hs Hok Hreply H200 Hmark Hfail.
  destruct (check_in_stock env self w s resp Hs Hok Hreply H200 Hmark)
    as (evs & hc & bc & Hrun & Hcalls & _ & Hfan).
  eexists _, _. split; [exact Hrun |].
  split; [reflexivity |]. split; [reflexivity |].
  destruct (fan_out_all_fail env _ _ _ _ _ _ _ Hfail Hfan)
    as (evs' & Htr & Hlen).
  { cbn [http_calls with_statistics advance]. lia. }
  cbn [trace with_statistics advance] in Htr.
  rewrite <- !app_assoc in Htr. do 2 apply app_inv_head in Htr. subst evs'.
  rewrite !calls_received_app, !error_lines_app, Hcalls, !length_app, Hlen.
  unfold check_request. simpl. rewrite length_map. lia.
Qed.

Lemma check_in_stock_survives_backends_witness :
  exists w' evs,
    check_availability Scenario.failing_env Scenario.checker
      (Scenario.world 0) = (Returns true, w') /\
    statistics_store w' =
      <[0%nat := {| total_checks := 1; in_stock_count := 1;
                    out_of_stock_count := 0; error_count := 0 |}]>
        (statistics_store (Scenario.world 0)) /\
    trace w' = trace (Scenario.world 0) ++ evs /\
    length (calls_received evs) = 2%nat /\
    length (error_lines evs) = 2%nat.
Proof.
  apply (check_in_stock_survives_backends Scenario.failing_env
           Scenario.checker (Scenario.world 0) Statistics_default
           {| status_code := 200; text := "[]" |}).
  - reflexivity.
  - concrete_services_ok.
  - reflexivity.
  - reflexivity.
  - reflexivity.
  - split.
    + intros n. eexists. reflexivity.
    + intros [|n] Hn; [simpl in Hn; lia |]. eexists _, _. reflexivity.
Defined.

(** C10. The constructor of the Discord service allocates an object with
    [webhook_url] and without [statistics]. [AirUpChecker.__init__] changes
    no service object except Discord objects of its list, to which it
    gives the attribute; a check changes no service object at all. A
    [send_notification] on a Discord object without the attribute raises
    AttributeError after the call is received and before anything is
    posted; so it does on an object that was constructed and then left out
    of the list of a checker. *)
Theorem discord_needs_a_checker (env : Env) :
  (forall webhook_url w, exists l w',
     DiscordNotificationService_new webhook_url w = (Returns l, w') /\
     service_store w !! l = None /\
     service_store w' !! l =
       Some (DiscordNotificationService webhook_url None)) /\
  (forall cfg ls stats w out w',
     AirUpChecker_init cfg ls stats w = (out, w') ->
     forall l,
       service_store w' !! l = service_store w !! l \/
       (In l ls /\ exists u o,
          service_store w !! l = Some (DiscordNotificationService u o) /\
          service_store w' !! l =
            Some (DiscordNotificationService u (Some stats)))) /\
  (forall self w, service_store (snd (check_availability env self w)) =
                  service_store w) /\
  (forall l u title message status w,
     service_store w !! l = Some (DiscordNotificationService u None) ->
     exists w',
       send_notification env l title message status w =
         (Raises no_statistics_attribute, w') /\
       trace w' = trace w ++ [EvSend l title message status] /\
       http_calls w' = http_calls w) /\
  (forall webhook_url cfg ls stats w l w1 out w2 title message status,
     DiscordNotificationService_new webhook_url w = (Returns l, w1) ->
     ~ In l ls ->
     AirUpChecker_init cfg ls stats w1 = (out, w2) ->
     exists w3,
       send_notification env l title message status w2 =
         (Raises no_statistics_attribute, w3) /\
       posts (trace w3) = posts (trace w2)).
Proof.
  assert (Hsend : forall l u title message status w,
     service_store w !! l = Some (DiscordNotificationService u None) ->
     exists w',
       send_notification env l title message status w =
         (Raises no_statistics_attribute, w') /\
       trace w' = trace w ++ [EvSend l title message status] /\
       http_calls w' = http_calls w).
  { intros l u title message status w Hl. eexists.
    split; [exact (send_without_statistics env l u _ _ _ w Hl) |].
    now split. }
  repeat split.
  - intros webhook_url w.
    destruct (Discord_new_run webhook_url w) as [Hrun Hfresh].
    eexists _, _. split; [exact Hrun |]. split; [exact Hfresh |].
    apply lookup_insert_eq.
  - intros cfg ls stats w out w' Hinit.
    exact (proj2 (proj2 (AirUpChecker_init_frame cfg ls stats w out w' Hinit))).
  - intros self w. apply keeps_check_availability.
  - exact Hsend.
  - intros webhook_url cfg ls stats w l w1 out w2 title message status
      Hnew Hnot Hinit.
    destruct (Discord_new_run webhook_url w) as [Hrun _].
    rewrite Hrun in Hnew. inversion Hnew; subst l w1. clear Hnew.
    destruct (AirUpChecker_init_frame _ _ _ _ _ _ Hinit) as (_ & _ & Hframe).
    destruct (Hframe (fresh (dom (service_store w)))) as [E | [Hin _]];
      [| contradiction].
    cbn [service_store] in E. rewrite lookup_insert_eq in E.
    destruct (Hsend _ _ title message status w2 E) as (w3 & Hrun3 & Htr & _).
    exists w3. split; [exact Hrun3 |].
    rewrite Htr. unfold posts. rewrite omap_app. apply app_nil_r.
Qed.

Lemma discord_needs_a_checker_witness :
  let w1 := snd (DiscordNotificationService_new "other hook"
                   (Scenario.world 0)) in
  let w2 := snd (AirUpChecker_init main_product_config [0%nat; 1%nat] 0%nat
                   w1) in
  exists w3,
    send_notification Scenario.env 2%nat "t" "m" SUCCESS w2 =
      (Raises no_statistics_attribute, w3) /\
    posts (trace w3) = posts (trace w2).
Proof.
  intros w1 w2.
  destruct (discord_needs_a_checker Scenario.env) as (_ & _ & _ & _ & H).
  apply (H "other hook" main_product_config [0%nat; 1%nat] 0%nat
           (Scenario.world 0) 2%nat w1
           (fst (AirUpChecker_init main_product_config [0%nat; 1%nat] 0%nat
                   w1))
           w2 "t" "m" SUCCESS).
  - vm_compute. reflexivity.
  - simpl. lia.
  - reflexivity.
Defined.

(** C6. The loop of [main] ends right after the first check that returns
    true: if the first [k] answers mean "not in stock" and the next one
    means "in stock", then with any bound above [k] the loop stops in one
    and the same world, after [k] sleeps of 300 seconds and [k + 1] checks,
    its last action being the closing log line. While the answers mean "not
    in stock" the loop keeps going, one check and one sleep of 300 seconds
    per iteration. The loop never raises, and it stops only if some answer
    means "in stock". *)
Theorem main_loop_stops_at_first_in_stock (env : Env)
    (checker : AirUpChecker) (w : World) (s : Statistics) :
  statistics_store w !! statistics checker = Some s ->
  services_ok w (notification_services checker) ->
  (forall k,
     (forall i, (i < k)%nat ->
        in_stock_reply (http_reply env (http_calls w + i)) = false) ->
     in_stock_reply (http_reply env (http_calls w + k)) = true ->
     exists w' evs s',
       (forall fuel, (k < fuel)%nat ->
          main_loop env checker fuel w = (Returns Stopped, w')) /\
       trace w' = trace w ++ evs /\
       sleeps evs = repeat 300 k /\
       last evs = Some (EvLog "Stopping script as item is in stock." SUCCESS) /\
       statistics_store w' !! statistics checker = Some s' /\
       total_checks s' = total_checks s + Z.of_nat k + 1 /\
       in_stock_count s' = in_stock_count s + 1) /\
  (forall n,
     (forall i, (i < n)%nat ->
        in_stock_reply (http_reply env (http_calls w + i)) = false) ->
     exists w' evs s',
       main_loop env checker n w = (Returns StillRunning, w') /\
       trace w' = trace w ++ evs /\
       sleeps evs = repeat 300 n /\
       statistics_store w' !! statistics checker = Some s' /\
       total_checks s' = total_checks s + Z.of_nat n /\
       in_stock_count s' = in_stock_count s) /\
  (forall fuel, exists status w',
     main_loop env checker fuel w = (Returns status, w') /\
     (status = Stopped <->
      exists k, (k < fuel)%nat /\
        in_stock_reply (http_reply env (http_calls w + k)) = true)).
Proof.
  intros Hs Hok.
  assert (HA : forall k,
     (forall i, (i < k)%nat ->
        in_stock_reply (http_reply env (http_calls w + i)) = false) ->
     in_stock_reply (http_reply env (http_calls w + k)) = true ->
     exists w' evs s',
       (forall fuel, (k < fuel)%nat ->
          main_loop env checker fuel w = (Returns Stopped, w')) /\
       trace w' = trace w ++ evs /\
       sleeps evs = repeat 300 k /\
       last evs = Some (EvLog "Stopping script as item is in stock." SUCCESS) /\
       statistics_store w' !! statistics checker = Some s' /\
       total_checks s' = total_checks s + Z.of_nat k + 1 /\
       in_stock_count s' = in_stock_count s + 1).
  { intros k Hnot Hin.
    destruct (main_loop_waiting env checker k w s Hs Hok Hnot)
      as (evs1 & s1 & Hrun1 & Hsl1 & Ht1 & Hi1).
    set (w1 := with_statistics (advance w evs1 k 0) (statistics checker) s1)
      in *.
    destruct (main_loop_stopping env checker w1 s1) as
      (w' & evs2 & s' & Hrun2 & Htr2 & Hsl2 & Hlast & Hs' & Ht2 & Hi2).
    { apply with_statistics_lookup. }
    { apply services_ok_with_statistics, services_ok_advance, Hok. }
    { cbn [http_calls with_statistics advance w1].
      now rewrite Nat.add_comm. }
    exists w', (evs1 ++ evs2), s'.
    split; [| split; [| split; [| split; [| split; [| split]]]]].
    - intros fuel Hfuel.
      replace fuel with (k + S (fuel - S k))%nat by lia.
      rewrite Hrun1. apply Hrun2.
    - rewrite Htr2. cbn [trace with_statistics advance w1].
      now rewrite app_assoc.
    - rewrite sleeps_app, Hsl1, Hsl2. apply app_nil_r.
    - destruct evs2 as [|e evs2]; [discriminate |].
      rewrite last_app. now rewrite Hlast.
    - exact Hs'.
    - lia.
    - lia. }
  assert (HB : forall n,
     (forall i, (i < n)%nat ->
        in_stock_reply (http_reply env (http_calls w + i)) = false) ->
     exists w' evs s',
       main_loop env checker n w = (Returns StillRunning, w') /\
       trace w' = trace w ++ evs /\
       sleeps evs = repeat 300 n /\
       statistics_store w' !! statistics checker = Some s' /\
       total_checks s' = total_checks s + Z.of_nat n /\
       in_stock_count s' = in_stock_count s).
  { intros n Hnot.
    destruct (main_loop_waiting env checker n w s Hs Hok Hnot)
      as (evs & s' & Hrun & Hsl & Ht & Hi).
    eexists _, evs, s'. split.
    - rewrite <- (Nat.add_0_r n) at 1. rewrite Hrun. reflexivity.
    - repeat split; auto. apply with_statistics_lookup. }
  split; [exact HA |]. split; [exact HB |].
  intros fuel.
  destruct (first_true
              (fun i => in_stock_reply (http_reply env (http_calls w + i)))
              fuel) as [Hnone | (k & Hk & Hin & Hfirst)].
  - destruct (HB fuel Hnone) as (w' & _ & _ & Hrun & _).
    exists StillRunning, w'. split; [exact Hrun |]. split; [discriminate |].
    intros (k & Hk & Hin). rewrite (Hnone k Hk) in Hin. discriminate.
  - destruct (HA k Hfirst Hin) as (w' & _ & _ & Hrun & _).
    exists Stopped, w'. split; [exact (Hrun fuel Hk) |].
    split; [| reflexivity]. intros _. now exists k.
Qed.

Lemma main_loop_stops_at_first_in_stock_witness :
  (exists w' evs s',
     (forall fuel, (3 < fuel)%nat ->
        main_loop Scenario.env Scenario.checker fuel (Scenario.world 0) =
          (Returns Stopped, w')) /\
     trace w' = trace (Scenario.world 0) ++ evs /\
     sleeps evs = [300; 300; 300] /\
     last evs = Some (EvLog "Stopping script as item is in stock." SUCCESS) /\
     statistics_store w' !! 0%nat = Some s' /\
     total_checks s' = 4 /\
     in_stock_count s' = 1) /\
  (exists w' evs s',
     main_loop Scenario.env Scenario.checker 3 (Scenario.world 0) =
       (Returns StillRunning, w') /\
     trace w' = trace (Scenario.world 0) ++ evs /\
     sleeps evs = [300; 300; 300] /\
     statistics_store w' !! 0%nat = Some s' /\
     total_checks s' = 3 /\
     in_stock_count s' = 0).
Proof.
  destruct (main_loop_stops_at_first_in_stock Scenario.env Scenario.checker
              (Scenario.world 0) Statistics_default) as (HA & HB & _).
  - reflexivity.
  - concrete_services_ok.
  - split.
    + apply (HA 3%nat); [| reflexivity].
      intros [|[|[|i]]] Hi; solve [reflexivity | lia].
    + apply (HB 3%nat).
      intros [|[|[|i]]] Hi; solve [reflexivity | lia].
Defined.

(** [main] sets the scene and enters the loop: a fresh statistics object,
    a desktop and a Discord backend, the latter sharing the statistics. *)
Lemma main_enters_loop (env : Env) (fuel : nat) :
  main env fuel empty_world =
  main_loop env
    {| product_config := main_product_config;
       notification_services := [0%nat; 1%nat];
       statistics := 0%nat;
       headers := _get_default_headers |}
    fuel
    {| statistics_store := <[0%nat := Statistics_default]> ∅;
       service_store :=
         <[1%nat := DiscordNotificationService "your_webhook_link_here"
                      (Some 0%nat)]>
           (<[1%nat := DiscordNotificationService "your_webhook_link_here"
                         None]>
              (<[0%nat := DesktopNotificationService]> ∅));
       trace :=
         [ EvSystem (if String.eqb (os_name env) "nt" then "cls" else "clear");
           EvSystem (Title.title_command (os_name env) Statistics_default);
           EvLog "Starting availability checker for AirUp Charcoal Grey bottle..."
             INFO ];
       http_calls := 0;
       backend_calls := 0 |}.
Proof. reflexivity. Qed.

(** C7, as the code has it. For every configuration whose five fields hold
    no double quote, no backslash and no control character, the request
    body is a JSON array of exactly one object with exactly the five string
    fields cartId, bottleHandle, flavorHandle, country, language, carrying
    the values of the configuration. *)
Theorem request_body_of_plain_config (cfg : ProductConfig) :
  config_plain cfg = true ->
  Json.parse (_get_request_body cfg) =
    Some (Json.JArray [Json.JObject
            [ ("cartId", Json.JString (cart_id cfg));
              ("bottleHandle", Json.JString (bottle_handle cfg));
              ("flavorHandle", Json.JString (flavor_handle cfg));
              ("country", Json.JString (country cfg));
              ("language", Json.JString (language cfg)) ]]) /\
  denotes_config (_get_request_body cfg) cfg.
Proof.
  intros Hplain.
  assert (Hparse : Json.parse (_get_request_body cfg) =
    Some (Json.JArray [Json.JObject
            [ ("cartId", Json.JString (cart_id cfg));
              ("bottleHandle", Json.JString (bottle_handle cfg));
              ("flavorHandle", Json.JString (flavor_handle cfg));
              ("country", Json.JString (country cfg));
              ("language", Json.JString (language cfg)) ]])).
  { unfold Json.parse.
    assert (Hlen : (10 <= 2 * String.length (_get_request_body cfg) + 2)%nat).
    { rewrite request_body_shape. cbn [String.length].
      rewrite length_append. cbn [String.length]. lia. }
    destruct (Nat.le_exists_sub _ _ Hlen) as (n & Hn & _).
    rewrite Hn, (Nat.add_comm n 10).
    now rewrite (value_request_body cfg n Hplain). }
  split; [exact Hparse |].
  eexists. split; [exact Hparse |]. split; [reflexivity |].
  intros k v Hin. unfold body_fields in Hin. simpl in Hin.
  destruct Hin as [E|[E|[E|[E|[E|[]]]]]]; inversion E; subst; reflexivity.
Qed.

Lemma request_body_of_plain_config_witness :
  Json.parse (_get_request_body main_product_config) =
    Some (Json.JArray [Json.JObject
            [ ("cartId", Json.JString "your_cart_id_here");
              ("bottleHandle",
               Json.JString "bottle-tritan-650ml-charcoal-grey-us");
              ("flavorHandle",
               Json.JString "3-pod-variety-pack-vivid-vibes-udb");
              ("country", Json.JString "it");
              ("language", Json.JString "en") ]]) /\
  denotes_config (_get_request_body main_product_config) main_product_config.
Proof.
  apply (request_body_of_plain_config main_product_config). reflexivity.
Defined.

(** C7, as stated, fails: a cart identifier holding double quotes is
    interpolated as it is, and the body then carries a sixth field. *)
Lemma request_body_not_for_every_config :
  ~ denotes_config (_get_request_body quoting_config) quoting_config.
Proof.
  intros (ms & Hparse & Hlen & _).
  vm_compute in Hparse. inversion Hparse; subst ms. discriminate Hlen.
Qed.

(** What that body reads back as. *)
Example quoting_config_body :
  Json.parse (_get_request_body quoting_config) =
    Some (Json.JArray [Json.JObject
            [ ("cartId", Json.JString "x");
              ("extra", Json.JString "y");
              ("bottleHandle", Json.JString "bottle");
              ("flavorHandle", Json.JString "flavor");
              ("country", Json.JString "it");
              ("language", Json.JString "en") ]]).
Proof. vm_compute. reflexivity. Qed.

(** A lone double quote in a field leaves a body that is no JSON text. *)
Example lone_quote_body :
  Json.parse
    (_get_request_body
       {| url := EmptyString; cart_id := dquote; bottle_handle := "b";
          flavor_handle := "f"; country := "it"; language := "en" |}) = None.
Proof. vm_compute. reflexivity. Qed.

(** C8. For every statistics state, the title that [update_title] hands to
    the shell is the unescaped title with each of the characters
    ( ) ! ^ & | < > prefixed with exactly one caret and every other
    character unchanged; the only such characters in a title are its two
    bars. *)
Theorem update_title_escapes (s : Statistics) :
  Title.escaped_title s = Title.caret_prefixed (Title.raw_title s) /\
  Title.escaped_title s =
    "AirUp Checker ^| No Stock: " +:+ str_int (out_of_stock_count s)
    +:+ " ^| Stock: " +:+ str_int (in_stock_count s).
Proof.
  assert (E : Title.escaped_title s = Title.caret_prefixed (Title.raw_title s)).
  { unfold Title.escaped_title. apply escape_late, raw_title_late. }
  split; [exact E |].
  rewrite E. unfold Title.raw_title.
  rewrite !caret_prefixed_app.
  rewrite !(caret_prefixed_plain (str_int _))
    by (apply (all_chars_weaken Title.numeral_char);
        [apply numeral_not_special | apply str_int_numeral]).
  reflexivity.
Qed.

(** The order of the replacements matters on other strings: a parenthesis
    gets its caret from the first replacement, and the fourth doubles that
    caret. No title contains one. *)
Example escape_doubles_early_carets :
  Title.escape "(a)" = "^^(a^^)" /\ Title.caret_prefixed "(a)" = "^(a^)".
Proof. split; reflexivity. Qed.

(** * Further properties *)

(** ** The title and the request body *)

Lemma escape_any_char (c : ascii) :
  Title.escape (String c EmptyString) = escape_char_as_written c.
Proof. destruct c as [[] [] [] [] [] [] [] []]; reflexivity. Qed.

(** X1. On an arbitrary string the chain of replacements of line 44 works
    character by character: [&], [|], [<], [>] get one caret in front,
    while [(], [)], [!] get two and a caret becomes two carets, because
    the replacement of the caret comes after theirs. *)
Theorem escape_is_as_written (t : string) :
  Title.escape t = escape_as_written t.
Proof.
  induction t as [|c t IH]; [reflexivity |].
  change (String c t) with (String c EmptyString +:+ t) at 1.
  rewrite escape_app, escape_any_char, IH. reflexivity.
Qed.

Lemma escaped_title_explicit (s : Statistics) :
  Title.escaped_title s =
    "AirUp Checker ^| No Stock: " +:+ str_int (out_of_stock_count s)
    +:+ " ^| Stock: " +:+ str_int (in_stock_count s).
Proof.
  unfold Title.escaped_title.
  rewrite (escape_late _ (raw_title_late s)). unfold Title.raw_title.
  rewrite !caret_prefixed_app.
  rewrite !(caret_prefixed_plain (str_int _))
    by (apply (all_chars_weaken Title.numeral_char);
        [apply numeral_not_special | apply str_int_numeral]).
  reflexivity.
Qed.

Lemma numeral_keeps_quoting (c : ascii) :
  Title.numeral_char c = true -> negb (breaks_quoting c) = true.
Proof.
  destruct c as [[] [] [] [] [] [] [] []]; intros H;
    solve [ reflexivity | discriminate H ].
Qed.

(** X2. Whatever the counters are, the title handed to the shell holds no
    single quote, no backslash and no control character: the quoted
    argument of the [echo -en] command is never cut short, and the command
    on every system is the fixed text around the two counters. *)
Theorem title_command_is_well_quoted (os : string) (s : Statistics) :
  all_chars (fun c => negb (breaks_quoting c)) (Title.escaped_title s) = true /\
  Title.title_command os s =
    (if String.eqb os "nt" then "title "
     else "echo -en '" +:+ String (ascii_of_nat 27) "]0;")
    +:+ "AirUp Checker ^| No Stock: " +:+ str_int (out_of_stock_count s)
    +:+ " ^| Stock: " +:+ str_int (in_stock_count s)
    +:+ (if String.eqb os "nt" then EmptyString
         else String (ascii_of_nat 7) "'").
Proof.
  split.
  - rewrite escaped_title_explicit, !all_chars_app.
    rewrite !(all_chars_weaken Title.numeral_char _ _ numeral_keeps_quoting
                (str_int_numeral _)).
    reflexivity.
  - unfold Title.title_command. rewrite escaped_title_explicit.
    destruct (String.eqb os "nt").
    + now rewrite append_nil_r.
    + now rewrite !append_assoc.
Qed.

(** X3. On configurations whose fields need no escaping the request body
    determines the five fields: two such configurations with the same body
    agree on cart identifier, handles, country and language. *)
Theorem request_body_injective (cfg1 cfg2 : ProductConfig) :
  config_plain cfg1 = true ->
  config_plain cfg2 = true ->
  _get_request_body cfg1 = _get_request_body cfg2 ->
  cart_id cfg1 = cart_id cfg2 /\
  bottle_handle cfg1 = bottle_handle cfg2 /\
  flavor_handle cfg1 = flavor_handle cfg2 /\
  country cfg1 = country cfg2 /\
  language cfg1 = language cfg2.
Proof.
  intros H1 H2 Hbody.
  pose proof (value_request_body cfg1 0 H1) as V1.
  pose proof (value_request_body cfg2 0 H2) as V2.
  rewrite Hbody, V2 in V1. inversion V1. now repeat split.
Qed.

Lemma request_body_injective_witness :
  let other :=
    {| url := "https://shop.air-up.com/de/de";
       cart_id := cart_id main_product_config;
       bottle_handle := bottle_handle main_product_config;
       flavor_handle := flavor_handle main_product_config;
       country := country main_product_config;
       language := language main_product_config |} in
  cart_id main_product_config = cart_id other /\
  bottle_handle main_product_config = bottle_handle other /\
  flavor_handle main_product_config = flavor_handle other /\
  country main_product_config = country other /\
  language main_product_config = language other.
Proof.
  intros other.
  apply (request_body_injective main_product_config other); reflexivity.
Defined.

(** ** The backends *)

Section BackendFacts.

Context (env : Env).

Lemma posts_app evs1 evs2 : posts (evs1 ++ evs2) = posts evs1 ++ posts evs2.
Proof. apply omap_app. Qed.

(** A Discord service with its statistics attribute: the embed is built
    from the statistics as they are, and posted. *)
Lemma discord_send_run l u r s t m st w :
  service_store w !! l = Some (DiscordNotificationService u (Some r)) ->
  statistics_store w !! r = Some s ->
  send_notification env l t m st w =
    (match http_reply env (http_calls w) with
     | Responds _ => Returns tt
     | TransportError c msg =>
         Raises {| exc_class := RequestException c; exc_str := msg |}
     end,
     advance w [EvSend l t m st;
                EvPost u (WithJson [discord_embed t m st s])] 1 0).
Proof.
  intros Hl Hs. unfold send_notification.
  erewrite bind_returns by (apply get_service_run; exact Hl).
  erewrite bind_returns by apply emit_run.
  unfold Discord_send_notification. cbv zeta.
  erewrite bind_returns by (apply get_statistics_run; exact Hs).
  rewrite bind_run, requests_post_run, advance_advance.
  change (http_calls (advance w [EvSend l t m st] 0 0)) with (http_calls w).
  destruct (http_reply env (http_calls w)); reflexivity.
Qed.

(** What one [send_notification] posts. *)
Lemma send_notification_posts l obj t m st w :
  service_store w !! l = Some obj ->
  (forall u r, obj = DiscordNotificationService u (Some r) ->
               is_Some (statistics_store w !! r)) ->
  exists out evs hc bc,
    send_notification env l t m st w =
      (out, advance w (EvSend l t m st :: evs) hc bc) /\
    out <> Fault /\
    posts evs = option_list (webhook_post w t m st l) /\
    calls_received evs = [].
Proof.
  intros Hl Hst. unfold webhook_post. rewrite Hl.
  destruct obj as [|u [r|]|name].
  - destruct (send_notification_run env l _ t m st w Hl Hst)
      as (out & evs & hc & bc & Hrun & Hout & (Hc & _) & _).
    exists out, evs, hc, bc. repeat split; auto.
    unfold send_notification in Hrun.
    erewrite bind_returns in Hrun by (apply get_service_run; exact Hl).
    erewrite bind_returns in Hrun by apply emit_run.
    unfold Desktop_send_notification in Hrun.
    rewrite backend_call_run in Hrun.
    destruct (backend_failure env _); rewrite advance_advance in Hrun;
      inversion Hrun as [[Ho He Hh Hb]];
      apply app_inv_head in He; inversion He; reflexivity.
  - destruct (Hst u r eq_refl) as [s Hs]. rewrite Hs.
    rewrite (discord_send_run l u r s t m st w Hl Hs).
    eexists _, [_], 1%nat, 0%nat. split; [reflexivity |].
    split; [destruct (http_reply env _); discriminate |].
    split; reflexivity.
  - rewrite (send_without_statistics env l u t m st w Hl).
    exists (Raises no_statistics_attribute), [], 0%nat, 0%nat.
    repeat split; try discriminate; auto.
  - destruct (send_notification_run env l _ t m st w Hl Hst)
      as (out & evs & hc & bc & Hrun & Hout & (Hc & _) & _).
    exists out, evs, hc, bc. repeat split; auto.
    unfold send_notification in Hrun.
    erewrite bind_returns in Hrun by (apply get_service_run; exact Hl).
    erewrite bind_returns in Hrun by apply emit_run.
    rewrite backend_call_run in Hrun.
    destruct (backend_failure env _); rewrite advance_advance in Hrun;
      inversion Hrun as [[Ho He Hh Hb]];
      apply app_inv_head in He; inversion He; reflexivity.
Qed.

(** What the whole fan-out posts: one webhook request per Discord service
    that has its statistics, in registration order. *)
Lemma notify_all_posts t m st ls w :
  services_ok w ls ->
  exists evs hc bc,
    for_each (notify_one env t m st) ls w = (Returns tt, advance w evs hc bc) /\
    posts evs = omap (webhook_post w t m st) ls /\
    calls_received evs = map (fun l => (l, t, m, st)) ls.
Proof.
  revert w. induction ls as [|l ls IH]; intros w Hok.
  - exists [], 0%nat, 0%nat. rewrite advance_nothing. now repeat split.
  - destruct (Hok l (or_introl eq_refl)) as (obj & Hobj & Hst).
    destruct (send_notification_posts l obj t m st w Hobj Hst)
      as (out & evs1 & hc1 & bc1 & Hrun1 & Hout & Hp1 & Hc1).
    assert (Hone : exists evs1',
      notify_one env t m st l w =
        (Returns tt, advance w (EvSend l t m st :: evs1') hc1 bc1) /\
      posts evs1' = option_list (webhook_post w t m st l) /\
      calls_received evs1' = []).
    { destruct out as [[]|e|]; [| |congruence].
      - exists evs1. now rewrite (notify_one_returns env _ _ _ _ _ _ Hrun1).
      - exists (evs1 ++ [EvLog (notify_error_line obj e) ERROR]).
        rewrite (notify_one_catches env _ _ _ _ _ _ _ obj Hrun1 Hobj).
        rewrite advance_advance, posts_app, calls_received_app, Hp1, Hc1.
        split; [reflexivity |]. split; [apply app_nil_r | reflexivity]. }
    destruct Hone as (evs1' & Hrun1' & Hp1' & Hc1').
    set (w1 := advance w (EvSend l t m st :: evs1') hc1 bc1) in *.
    assert (Hok1 : services_ok w1 ls).
    { apply services_ok_advance. intros l' Hl'. apply Hok. now right. }
    destruct (IH w1 Hok1) as (evs2 & hc2 & bc2 & Hrun2 & Hp2 & Hc2).
    change (webhook_post w1 t m st) with (webhook_post w t m st) in Hp2.
    exists ((EvSend l t m st :: evs1') ++ evs2), (hc2 + hc1)%nat,
      (bc2 + bc1)%nat.
    cbn [for_each]. rewrite (bind_returns _ _ _ _ _ Hrun1'), Hrun2.
    unfold w1. rewrite advance_advance.
    split; [reflexivity |]. split.
    + rewrite posts_app.
      change (posts (EvSend l t m st :: evs1')) with (posts evs1').
      rewrite Hp1', Hp2. cbn [omap list_omap].
      now destruct (webhook_post w t m st l).
    + rewrite calls_received_app.
      change (calls_received (EvSend l t m st :: evs1'))
        with ((l, t, m, st) :: calls_received evs1').
      now rewrite Hc1', Hc2.
Qed.


End BackendFacts.

(** X4. A Discord service that has its statistics attribute answers a
    notification with exactly one request to its webhook, whose embed
    carries the emoji and the title, the message, the colour of the status
    and the four counters as they stand in the shared statistics object at
    the time of the call. The response is not looked at: whatever its
    status the call returns; a transport error of the request is raised to
    the caller. The counters are only read. *)
Theorem discord_posts_current_statistics (env : Env) (l : ref)
    (webhook_url : string) (r : ref) (s : Statistics)
    (title message : string) (status : NotificationStatus) (w : World) :
  service_store w !! l =
    Some (DiscordNotificationService webhook_url (Some r)) ->
  statistics_store w !! r = Some s ->
  exists out w',
    send_notification env l title message status w = (out, w') /\
    trace w' = trace w ++
      [EvSend l title message status;
       EvPost webhook_url (WithJson [discord_embed title message status s])] /\
    statistics_store w' = statistics_store w /\
    (forall resp, http_reply env (http_calls w) = Responds resp ->
                  out = Returns tt) /\
    (forall subclass msg,
       http_reply env (http_calls w) = TransportError subclass msg ->
       out = Raises {| exc_class := RequestException subclass;
                       exc_str := msg |}).
Proof.
  intros Hl Hs. rewrite (discord_send_run env l _ r s _ _ _ w Hl Hs).
  eexists _, _. split; [reflexivity |]. split; [reflexivity |].
  split; [reflexivity |].
  split; [intros resp -> | intros c msg ->]; reflexivity.
Qed.

Lemma discord_posts_current_statistics_witness :
  exists out w',
    send_notification Scenario.env 1%nat "t" "m" WARNING (Scenario.world 2) =
      (out, w') /\
    trace w' = trace (Scenario.world 2) ++
      [EvSend 1%nat "t" "m" WARNING;
       EvPost "hook"
         (WithJson [discord_embed "t" "m" WARNING Statistics_default])] /\
    statistics_store w' = statistics_store (Scenario.world 2) /\
    (forall resp, http_reply Scenario.env 2 = Responds resp ->
                  out = Returns tt) /\
    (forall subclass msg,
       http_reply Scenario.env 2 = TransportError subclass msg ->
       out = Raises {| exc_class := RequestException subclass;
                       exc_str := msg |}).
Proof.
  apply (discord_posts_current_statistics Scenario.env 1%nat "hook" 0%nat
           Statistics_default "t" "m" WARNING (Scenario.world 2));
    reflexivity.
Defined.

(** X5. When every reference of the list points to a service object,
    [AirUpChecker.__init__] returns the checker it was asked for, with the
    default headers; it performs no output and leaves the statistics alone;
    afterwards every Discord service of the list has the checker's
    statistics as its attribute, whatever it had before, and every object
    of another class is as it was. *)
Theorem init_shares_statistics (cfg : ProductConfig) (services : list ref)
    (stats : ref) (w : World) :
  (forall l, In l services -> is_Some (service_store w !! l)) ->
  exists w',
    AirUpChecker_init cfg services stats w =
      (Returns {| product_config := cfg;
                  notification_services := services;
                  statistics := stats;
                  headers := _get_default_headers |}, w') /\
    trace w' = trace w /\
    statistics_store w' = statistics_store w /\
    (forall l u o, In l services ->
       service_store w !! l = Some (DiscordNotificationService u o) ->
       service_store w' !! l =
         Some (DiscordNotificationService u (Some stats))) /\
    (forall l, service_store w !! l = Some DesktopNotificationService ->
               service_store w' !! l = Some DesktopNotificationService) /\
    (forall l name,
       service_store w !! l = Some (OtherNotificationService name) ->
       service_store w' !! l = Some (OtherNotificationService name)).
Proof.
  intros Hall.
  destruct (share_statistics_run stats services w Hall) as (w' & Hrun & Hset).
  destruct (share_statistics_frame stats services w _ _ Hrun)
    as (Hst & Htr & Hframe).
  exists w'. unfold AirUpChecker_init.
  rewrite (bind_returns _ _ _ _ _ Hrun), ret_run.
  split; [reflexivity |]. split; [exact Htr |]. split; [exact Hst |].
  split; [| split].
  - intros l u o Hl Hobj. exact (Hset l Hl u o Hobj).
  - intros l Hobj. destruct (Hframe l) as [E | (_ & u & o & E & _)];
      congruence.
  - intros l name Hobj. destruct (Hframe l) as [E | (_ & u & o & E & _)];
      congruence.
Qed.

Lemma init_shares_statistics_witness :
  exists w',
    AirUpChecker_init main_product_config [0%nat; 1%nat] 7%nat
      (Scenario.world 0) =
      (Returns {| product_config := main_product_config;
                  notification_services := [0%nat; 1%nat];
                  statistics := 7%nat;
                  headers := _get_default_headers |}, w') /\
    service_store w' !! 1%nat =
      Some (DiscordNotificationService "hook" (Some 7%nat)) /\
    service_store w' !! 0%nat = Some DesktopNotificationService.
Proof.
  destruct (init_shares_statistics main_product_config [0%nat; 1%nat] 7%nat
              (Scenario.world 0))
    as (w' & Hrun & _ & _ & Hd & Hk & _).
  - intros l H. simpl in H.
    destruct H as [<-|[<-|[]]]; eexists; reflexivity.
  - exists w'. split; [exact Hrun |]. split.
    + apply (Hd 1%nat "hook" (Some 0%nat)); [simpl; tauto | reflexivity].
    + apply Hk. reflexivity.
Defined.

(** X6. A Discord service registered with two checkers in turn reports the
    statistics of the checker constructed last: the second [__init__]
    overwrites the attribute the first one set. *)
Theorem last_checker_sets_statistics (cfg1 cfg2 : ProductConfig)
    (services1 services2 : list ref) (stats1 stats2 : ref) (w : World)
    (l : ref) (u : string) (o : option ref) :
  (forall l', In l' services1 -> is_Some (service_store w !! l')) ->
  (forall l', In l' services2 -> is_Some (service_store w !! l')) ->
  In l services1 -> In l services2 ->
  service_store w !! l = Some (DiscordNotificationService u o) ->
  exists c1 w1 c2 w2,
    AirUpChecker_init cfg1 services1 stats1 w = (Returns c1, w1) /\
    AirUpChecker_init cfg2 services2 stats2 w1 = (Returns c2, w2) /\
    service_store w1 !! l = Some (DiscordNotificationService u (Some stats1)) /\
    service_store w2 !! l = Some (DiscordNotificationService u (Some stats2)).
Proof.
  intros Hall1 Hall2 Hin1 Hin2 Hobj.
  destruct (share_statistics_run stats1 services1 w Hall1)
    as (w1 & Hrun1 & Hset1).
  destruct (share_statistics_frame stats1 services1 w _ _ Hrun1)
    as (_ & _ & Hframe1).
  assert (Hall2' : forall l', In l' services2 ->
                              is_Some (service_store w1 !! l')).
  { intros l' Hl'. destruct (Hframe1 l') as [E | (_ & u' & o' & _ & E)].
    - rewrite E. now apply Hall2.
    - rewrite E. eauto. }
  destruct (share_statistics_run stats2 services2 w1 Hall2')
    as (w2 & Hrun2 & Hset2).
  eexists _, w1, _, w2. unfold AirUpChecker_init.
  rewrite (bind_returns _ _ _ _ _ Hrun1), (bind_returns _ _ _ _ _ Hrun2),
    !ret_run.
  split; [reflexivity |]. split; [reflexivity |].
  pose proof (Hset1 l Hin1 u o Hobj) as H1.
  split; [exact H1 |]. exact (Hset2 l Hin2 u _ H1).
Qed.

Lemma last_checker_sets_statistics_witness :
  exists c1 w1 c2 w2,
    AirUpChecker_init main_product_config [0%nat; 1%nat] 5%nat
      (Scenario.world 0) = (Returns c1, w1) /\
    AirUpChecker_init main_product_config [1%nat] 6%nat w1 =
      (Returns c2, w2) /\
    service_store w1 !! 1%nat =
      Some (DiscordNotificationService "hook" (Some 5%nat)) /\
    service_store w2 !! 1%nat =
      Some (DiscordNotificationService "hook" (Some 6%nat)).
Proof.
  apply (last_checker_sets_statistics main_product_config main_product_config
           [0%nat; 1%nat] [1%nat] 5%nat 6%nat (Scenario.world 0) 1%nat
           "hook" (Some 0%nat)).
  - intros l H. simpl in H.
    destruct H as [<-|[<-|[]]]; eexists; reflexivity.
  - intros l H. simpl in H. destruct H as [<-|[]]. eexists; reflexivity.
  - simpl. tauto.
  - simpl. tauto.
  - reflexivity.
Defined.

(** X7. When the [send_notification] of a service raises inside the
    fan-out, the guard logs one line at error level that names the class
    of the service and carries the text of the exception, and goes on; no
    counter changes, the error counter included. *)
Theorem failed_backend_is_named (env : Env) (title message : string)
    (status : NotificationStatus) (l : ref) (obj : Service) (w : World)
    (e : PyExc) (w1 : World) :
  service_store w !! l = Some obj ->
  send_notification env l title message status w = (Raises e, w1) ->
  exists w2,
    notify_one env title message status l w = (Returns tt, w2) /\
    trace w2 = trace w1 ++
      [EvLog ("Error sending notification via " +:+ class_name_of obj
              +:+ ": " +:+ exc_str e) ERROR] /\
    statistics_store w2 = statistics_store w.
Proof.
  intros Hobj Hsend.
  destruct (send_notification_inv env _ _ _ _ _ _ _ Hsend)
    as (obj' & evs & hc & bc & _ & Hw1 & _ & _); [discriminate |].
  assert (Hobj1 : service_store w1 !! l = Some obj) by (now subst w1).
  rewrite (notify_one_catches env _ _ _ _ _ _ _ obj Hsend Hobj1).
  eexists. split; [reflexivity |]. split; [reflexivity |]. now subst w1.
Qed.

Lemma failed_backend_is_named_witness :
  exists w2,
    notify_one Scenario.failing_env "t" "m" INFO 0%nat (Scenario.world 1) =
      (Returns tt, w2) /\
    trace w2 =
      trace (snd (send_notification Scenario.failing_env 0%nat "t" "m" INFO
                    (Scenario.world 1))) ++
      [EvLog ("Error sending notification via DesktopNotificationService: "
              +:+ "No usable implementation found!") ERROR] /\
    statistics_store w2 = statistics_store (Scenario.world 1).
Proof.
  apply (failed_backend_is_named Scenario.failing_env "t" "m" INFO 0%nat
           DesktopNotificationService (Scenario.world 1)
           {| exc_class := OtherException "NotImplementedError";
              exc_str := "No usable implementation found!" |});
    reflexivity.
Defined.

(** X8. The fan-out posts one webhook request for each registered Discord
    service that has its statistics, in registration order, and nothing
    else; it changes neither the counters nor any service object. *)
Theorem notify_all_posts_webhooks (env : Env) (self : AirUpChecker)
    (title message : string) (status : NotificationStatus) (w : World) :
  services_ok w (notification_services self) ->
  exists w' evs,
    _notify_all env self title message status w = (Returns tt, w') /\
    trace w' = trace w ++ evs /\
    posts evs =
      omap (webhook_post w title message status) (notification_services self) /\
    statistics_store w' = statistics_store w /\
    service_store w' = service_store w.
Proof.
  intros Hok.
  destruct (notify_all_posts env title message status _ w Hok)
    as (evs & hc & bc & Hrun & Hposts & _).
  exists (advance w evs hc bc), evs. now repeat split.
Qed.

Lemma notify_all_posts_webhooks_witness :
  exists w' evs,
    _notify_all Scenario.env Scenario.checker "t" "m" INFO (Scenario.world 0) =
      (Returns tt, w') /\
    trace w' = trace (Scenario.world 0) ++ evs /\
    posts evs =
      [("hook", WithJson [discord_embed "t" "m" INFO Statistics_default])] /\
    statistics_store w' = statistics_store (Scenario.world 0) /\
    service_store w' = service_store (Scenario.world 0).
Proof.
  apply (notify_all_posts_webhooks Scenario.env Scenario.checker "t" "m" INFO
           (Scenario.world 0)).
  concrete_services_ok.
Defined.


(** X16. The desktop service answers a notification with one popup that
    carries the title and the message and a timeout of 10 seconds; the
    status plays no part. When the popup library raises, nothing is shown
    and the exception reaches the caller of [send_notification]. *)
Theorem desktop_shows_popup (env : Env) (l : ref) (title message : string)
    (status : NotificationStatus) (w : World) :
  service_store w !! l = Some DesktopNotificationService ->
  exists out w' shown,
    send_notification env l title message status w = (out, w') /\
    trace w' = trace w ++ EvSend l title message status :: shown /\
    statistics_store w' = statistics_store w /\
    http_calls w' = http_calls w /\
    match backend_failure env (backend_calls w) with
    | None => out = Returns tt /\ shown = [EvPopup title message 10]
    | Some e => out = Raises e /\ shown = []
    end.
Proof.
  intros Hl. unfold send_notification.
  erewrite bind_returns by (apply get_service_run; exact Hl).
  erewrite bind_returns by apply emit_run.
  unfold Desktop_send_notification. rewrite backend_call_run.
  change (backend_calls (advance w [EvSend l title message status] 0 0))
    with (backend_calls w).
  destruct (backend_failure env (backend_calls w)) as [e|];
    rewrite advance_advance; eexists _, _, _;
    (split; [reflexivity |]); now repeat split.
Qed.

Lemma desktop_shows_popup_witness :
  exists out w' shown,
    send_notification Scenario.env 0%nat "t" "m" ERROR (Scenario.world 0) =
      (out, w') /\
    trace w' = trace (Scenario.world 0) ++ EvSend 0%nat "t" "m" ERROR :: shown /\
    statistics_store w' = statistics_store (Scenario.world 0) /\
    http_calls w' = http_calls (Scenario.world 0) /\
    (out = Returns tt /\ shown = [EvPopup "t" "m" 10]).
Proof.
  apply (desktop_shows_popup Scenario.env 0%nat "t" "m" ERROR
           (Scenario.world 0)).
  reflexivity.
Defined.

(** ** The check and the loop, event by event *)

Section CheckTraces.

Context (env : Env).

(** A check that is not answered "in stock": the request, one log line,
    the title. *)
Lemma check_not_in_stock_exact self w s :
  statistics_store w !! statistics self = Some s ->
  in_stock_reply (http_reply env (http_calls w)) = false ->
  exists line status s',
    check_availability env self w =
      (Returns false,
       with_statistics
         (advance w
            [check_request self; EvLog line status;
             EvSystem (Title.title_command (os_name env) s')] 1 0)
         (statistics self) s') /\
    (status = WARNING \/ status = ERROR) /\
    total_checks s' = total_checks s + 1 /\
    in_stock_count s' = in_stock_count s /\
    out_of_stock_count s' + error_count s' =
      out_of_stock_count s + error_count s + 1.
Proof.
  intros Hs Hreply.
  destruct (http_reply env (http_calls w)) as [resp|c m] eqn:Hr.
  - destruct (Z.eq_dec (status_code resp) 200) as [H200|Hne].
    + unfold in_stock_reply in Hreply. rewrite H200 in Hreply.
      apply negb_false_iff in Hreply.
      rewrite (check_out_of_stock env self w s resp Hs Hr H200 Hreply).
      eexists _, WARNING, _. split; [reflexivity |].
      split; [now left |]. simpl. lia.
    + rewrite (check_unexpected_status env self w s resp Hs Hr Hne).
      eexists _, ERROR, _. split; [reflexivity |].
      split; [now right |]. simpl. lia.
  - rewrite (check_transport_error env self w s _ _ Hs Hr).
    eexists _, ERROR, _. split; [reflexivity |].
    split; [now right |]. simpl. lia.
Qed.

(** The in-stock check, with what it posts. *)
Lemma check_in_stock_posts self w s resp :
  statistics_store w !! statistics self = Some s ->
  services_ok w (notification_services self) ->
  http_reply env (http_calls w) = Responds resp ->
  status_code resp = 200 ->
  contains "OUT_OF_STOCK" (text resp) = false ->
  let s' := incr_in_stock_count (incr_total_checks s) in
  let before := [check_request self;
                 EvLog "IN STOCK! Sending notifications..." SUCCESS] in
  exists evs hc bc,
    check_availability env self w =
      (Returns true,
       with_statistics
         (advance w
            (before ++ evs ++
             [EvSystem (Title.title_command (os_name env) s')]) (S hc) bc)
         (statistics self) s') /\
    posts evs =
      omap (webhook_post (with_statistics w (statistics self) s')
              in_stock_title in_stock_message SUCCESS)
        (notification_services self) /\
    calls_received evs =
      map (fun l => (l, in_stock_title, in_stock_message, SUCCESS))
        (notification_services self).
Proof.
  intros Hs Hok Hreply H200 Hmark s' before.
  set (w1 := with_statistics (advance w before 1 0) (statistics self) s').
  assert (Hok1 : services_ok w1 (notification_services self)).
  { unfold w1. apply services_ok_with_statistics, services_ok_advance, Hok. }
  destruct (notify_all_posts env in_stock_title in_stock_message SUCCESS
              _ w1 Hok1) as (evs & hc & bc & Hrun & Hp & Hc).
  exists evs, hc, bc.
  assert (Hw2 : advance w1 evs hc bc =
                with_statistics (advance w (before ++ evs) (S hc) bc)
                  (statistics self) s').
  { unfold w1. norm_world. now rewrite Nat.add_1_r, Nat.add_0_r. }
  rewrite Hw2 in Hrun.
  split; [| split; [exact Hp | exact Hc]].
  unfold check_availability.
  run_step. apply try_returns.
  rewrite bind_run, requests_post_run. cbn [http_calls with_statistics].
  rewrite Hreply, H200, Hmark. cbn [Z.eqb Pos.eqb]. norm_world.
  do 2 run_step.
  unfold _notify_all. fold in_stock_title in_stock_message.
  fold s' before w1.
  rewrite (bind_returns _ _ _ _ _ Hrun).
  do 2 run_step. now rewrite <- app_assoc.
Qed.

End CheckTraces.

(** X10. A check that is not answered "in stock" (a 200 reply with the
    marker, another status, or a transport error) does exactly three
    things: it sends the request, logs one line at warning or error level,
    and sets the title from the counters as they are after the check. It
    makes one HTTP call and no call into a backend. *)
Theorem check_not_in_stock_trace (env : Env) (self : AirUpChecker)
    (w : World) (s : Statistics) :
  statistics_store w !! statistics self = Some s ->
  in_stock_reply (http_reply env (http_calls w)) = false ->
  exists w' line status s',
    check_availability env self w = (Returns false, w') /\
    statistics_store w' !! statistics self = Some s' /\
    trace w' = trace w ++
      [EvPost (url (product_config self))
         (WithData (headers self) (_get_request_body (product_config self)));
       EvLog line status;
       EvSystem (Title.title_command (os_name env) s')] /\
    (status = WARNING \/ status = ERROR) /\
    http_calls w' = S (http_calls w) /\
    backend_calls w' = backend_calls w.
Proof.
  intros Hs Hreply.
  destruct (check_not_in_stock_exact env self w s Hs Hreply)
    as (line & status & s' & Hrun & Hstatus & _).
  eexists _, line, status, s'. split; [exact Hrun |].
  split; [apply with_statistics_lookup |]. now repeat split.
Qed.

Lemma check_not_in_stock_trace_witness :
  exists w' line status s',
    check_availability Scenario.env Scenario.checker (Scenario.world 2) =
      (Returns false, w') /\
    statistics_store w' !! 0%nat = Some s' /\
    trace w' = trace (Scenario.world 2) ++
      [EvPost (url main_product_config)
         (WithData _get_default_headers
            (_get_request_body main_product_config));
       EvLog line status;
       EvSystem (Title.title_command "posix" s')] /\
    (status = WARNING \/ status = ERROR) /\
    http_calls w' = 3%nat /\
    backend_calls w' = 0%nat.
Proof.
  apply (check_not_in_stock_trace Scenario.env Scenario.checker
           (Scenario.world 2) Statistics_default); reflexivity.
Defined.

(** X11. Whatever the endpoint answers, a check begins by sending the
    request built from the configuration and the default headers, and its
    last action is to set the title from the counters as the check leaves
    them. *)
Theorem check_starts_and_ends (env : Env) (self : AirUpChecker) (w : World)
    (s : Statistics) :
  statistics_store w !! statistics self = Some s ->
  services_ok w (notification_services self) ->
  exists b w' evs s',
    check_availability env self w = (Returns b, w') /\
    trace w' = trace w ++ evs /\
    statistics_store w' !! statistics self = Some s' /\
    head evs =
      Some (EvPost (url (product_config self))
              (WithData (headers self)
                 (_get_request_body (product_config self)))) /\
    last evs = Some (EvSystem (Title.title_command (os_name env) s')).
Proof.
  intros Hs Hok.
  destruct (in_stock_reply (http_reply env (http_calls w))) eqn:Hreply.
  - destruct (in_stock_reply_true _ Hreply) as (resp & Hr & H200 & Hmark).
    destruct (check_in_stock env self w s resp Hs Hok Hr H200 Hmark)
      as (evs & hc & bc & Hrun & _).
    eexists true, _, _, _. split; [exact Hrun |].
    split; [reflexivity |]. split; [apply with_statistics_lookup |].
    split; [reflexivity |].
    rewrite app_assoc. apply last_snoc.
  - destruct (check_not_in_stock_exact env self w s Hs Hreply)
      as (line & status & s' & Hrun & _).
    eexists false, _, _, s'. split; [exact Hrun |].
    split; [reflexivity |]. split; [apply with_statistics_lookup |].
    split; reflexivity.
Qed.

Lemma check_starts_and_ends_witness :
  exists b w' evs s',
    check_availability Scenario.env Scenario.checker (Scenario.world 3) =
      (Returns b, w') /\
    trace w' = trace (Scenario.world 3) ++ evs /\
    statistics_store w' !! 0%nat = Some s' /\
    head evs =
      Some (EvPost (url main_product_config)
              (WithData _get_default_headers
                 (_get_request_body main_product_config))) /\
    last evs = Some (EvSystem (Title.title_command "posix" s')).
Proof.
  apply (check_starts_and_ends Scenario.env Scenario.checker
           (Scenario.world 3) Statistics_default).
  - reflexivity.
  - concrete_services_ok.
Defined.

(** X12. In the in-stock case the requests that go out are the check
    request followed by one webhook request per registered Discord service
    that has its statistics, in registration order. The counters are
    incremented before the fan-out and the statistics object is shared, so
    the embed of a service that shares the checker's statistics already
    counts the check that found the stock. *)
Theorem check_in_stock_posts_snapshot (env : Env) (self : AirUpChecker)
    (w : World) (s : Statistics) (resp : Response) :
  statistics_store w !! statistics self = Some s ->
  services_ok w (notification_services self) ->
  http_reply env (http_calls w) = Responds resp ->
  status_code resp = 200 ->
  contains "OUT_OF_STOCK" (text resp) = false ->
  let s' := {| total_checks := total_checks s + 1;
               in_stock_count := in_stock_count s + 1;
               out_of_stock_count := out_of_stock_count s;
               error_count := error_count s |} in
  exists w' evs,
    check_availability env self w = (Returns true, w') /\
    trace w' = trace w ++ evs /\
    posts evs =
      check_post self ::
      omap (webhook_post (with_statistics w (statistics self) s')
              in_stock_title in_stock_message SUCCESS)
        (notification_services self) /\
    (forall l u,
       In l (notification_services self) ->
       service_store w !! l =
         Some (DiscordNotificationService u (Some (statistics self))) ->
       In (u, WithJson [discord_embed in_stock_title in_stock_message
                          SUCCESS s'])
          (posts evs)).
Proof.
  intros Hs Hok Hreply H200 Hmark s'.
  destruct (check_in_stock_posts env self w s resp Hs Hok Hreply H200 Hmark)
    as (evs & hc & bc & Hrun & Hposts & _).
  eexists _, _. split; [exact Hrun |]. split; [reflexivity |].
  assert (Hall : posts
    ([check_request self; EvLog "IN STOCK! Sending notifications..." SUCCESS]
     ++ evs ++
     [EvSystem (Title.title_command (os_name env)
                  (incr_in_stock_count (incr_total_checks s)))]) =
    check_post self ::
      omap (webhook_post (with_statistics w (statistics self) s')
              in_stock_title in_stock_message SUCCESS)
        (notification_services self)).
  { rewrite !posts_app, Hposts. unfold check_request, check_post. simpl.
    now rewrite app_nil_r. }
  split; [exact Hall |].
  intros l u Hl Hobj. rewrite Hall. right.
  apply list_elem_of_In, list_elem_of_omap. exists l.
  split; [now apply list_elem_of_In |].
  unfold webhook_post. cbn [service_store with_statistics].
  rewrite Hobj, with_statistics_lookup. reflexivity.
Qed.

Lemma check_in_stock_posts_snapshot_witness :
  exists w' evs,
    check_availability Scenario.env Scenario.checker (Scenario.world 3) =
      (Returns true, w') /\
    trace w' = trace (Scenario.world 3) ++ evs /\
    posts evs =
      [ check_post Scenario.checker;
        ("hook",
         WithJson [discord_embed in_stock_title in_stock_message SUCCESS
                     {| total_checks := 1; in_stock_count := 1;
                        out_of_stock_count := 0; error_count := 0 |}]) ].
Proof.
  destruct (check_in_stock_posts_snapshot Scenario.env Scenario.checker
              (Scenario.world 3) Statistics_default
              {| status_code := 200; text := "{state:AVAILABLE}" |})
    as (w' & evs & Hrun & Htr & Hposts & _).
  - reflexivity.
  - concrete_services_ok.
  - reflexivity.
  - reflexivity.
  - reflexivity.
  - exists w', evs. split; [exact Hrun |]. split; [exact Htr |].
    rewrite Hposts. reflexivity.
Defined.

(** X13. With no backend registered the in-stock check still returns true:
    it sends the request, logs the detection at success level and sets the
    title, and does nothing else. *)
Theorem check_in_stock_without_backends (env : Env) (self : AirUpChecker)
    (w : World) (s : Statistics) (resp : Response) :
  notification_services self = [] ->
  statistics_store w !! statistics self = Some s ->
  http_reply env (http_calls w) = Responds resp ->
  status_code resp = 200 ->
  contains "OUT_OF_STOCK" (text resp) = false ->
  exists w',
    check_availability env self w = (Returns true, w') /\
    trace w' = trace w ++
      [EvPost (url (product_config self))
         (WithData (headers self) (_get_request_body (product_config self)));
       EvLog "IN STOCK! Sending notifications..." SUCCESS;
       EvSystem (Title.title_command (os_name env)
                   {| total_checks := total_checks s + 1;
                      in_stock_count := in_stock_count s + 1;
                      out_of_stock_count := out_of_stock_count s;
                      error_count := error_count s |})] /\
    http_calls w' = S (http_calls w) /\
    backend_calls w' = backend_calls w.
Proof.
  intros Hnone Hs Hreply H200 Hmark.
  eexists. split.
  - unfold check_availability.
    run_step. apply try_returns.
    rewrite bind_run, requests_post_run. cbn [http_calls with_statistics].
    rewrite Hreply, H200, Hmark. cbn [Z.eqb Pos.eqb]. norm_world.
    do 2 run_step.
    unfold _notify_all. rewrite Hnone. cbn [for_each].
    erewrite bind_returns by apply ret_run.
    do 2 run_step. reflexivity.
  - repeat split.
Qed.

Lemma check_in_stock_without_backends_witness :
  exists w',
    check_availability Scenario.env (with_services Scenario.checker [])
      (Scenario.world 3) = (Returns true, w') /\
    trace w' = trace (Scenario.world 3) ++
      [EvPost (url main_product_config)
         (WithData _get_default_headers
            (_get_request_body main_product_config));
       EvLog "IN STOCK! Sending notifications..." SUCCESS;
       EvSystem (Title.title_command "posix"
                   {| total_checks := 1; in_stock_count := 1;
                      out_of_stock_count := 0; error_count := 0 |})] /\
    http_calls w' = 4%nat /\
    backend_calls w' = 0%nat.
Proof.
  apply (check_in_stock_without_backends Scenario.env
           (with_services Scenario.checker []) (Scenario.world 3)
           Statistics_default
           {| status_code := 200; text := "{state:AVAILABLE}" |});
    reflexivity.
Defined.

Section LoopTraces.

Context (env : Env).

(** [k] answers "not in stock" in a row, with what goes out meanwhile. *)
Lemma main_loop_waiting_posts self k :
  forall w s,
    statistics_store w !! statistics self = Some s ->
    (forall i, (i < k)%nat ->
       in_stock_reply (http_reply env (http_calls w + i)) = false) ->
    exists evs s',
      (forall fuel,
         main_loop env self (k + fuel) w =
         main_loop env self fuel
           (with_statistics (advance w evs k 0) (statistics self) s')) /\
      sleeps evs = repeat 300 k /\
      posts evs = repeat (check_post self) k /\
      calls_received evs = [] /\
      total_checks s' = total_checks s + Z.of_nat k /\
      in_stock_count s' = in_stock_count s /\
      out_of_stock_count s' + error_count s' =
        out_of_stock_count s + error_count s + Z.of_nat k.
Proof.
  induction k as [|k IH]; intros w s Hs Hnot.
  - exists [], s. rewrite (with_statistics_same w _ s Hs).
    repeat split; simpl; lia.
  - assert (H0 : in_stock_reply (http_reply env (http_calls w)) = false).
    { rewrite <- (Nat.add_0_r (http_calls w)). apply Hnot. lia. }
    destruct (check_not_in_stock_exact env self w s Hs H0)
      as (line & status & s1 & Hrun1 & _ & Ht1 & Hi1 & Ho1).
    set (evs1 := [check_request self; EvLog line status;
                  EvSystem (Title.title_command (os_name env) s1);
                  EvLog "Waiting 5 minutes before the next check..." INFO;
                  EvPrint EmptyString; EvSleep 300]).
    set (w1 := with_statistics (advance w evs1 1 0) (statistics self) s1).
    destruct (IH w1 s1) as (evs2 & s2 & Hrun2 & Hsl2 & Hp2 & Hc2 & Ht2 & Hi2
                            & Ho2).
    { apply with_statistics_lookup. }
    { intros i Hi. cbn [http_calls with_statistics advance w1].
      replace (1 + http_calls w + i)%nat with (http_calls w + S i)%nat by lia.
      apply Hnot. lia. }
    exists (evs1 ++ evs2), s2.
    split; [| split; [| split; [| split; [| split; [| split]]]]].
    + intros fuel. cbn [Nat.add main_loop].
      rewrite (bind_returns _ _ _ _ _ Hrun1).
      unfold log. do 3 run_step.
      change (main_loop env self (k + fuel) w1 =
              main_loop env self fuel
                (with_statistics (advance w (evs1 ++ evs2) (S k) 0)
                   (statistics self) s2)).
      rewrite (Hrun2 fuel). unfold w1. norm_world.
      now rewrite Nat.add_1_r, Nat.add_0_r.
    + rewrite sleeps_app, Hsl2. reflexivity.
    + rewrite posts_app, Hp2. reflexivity.
    + rewrite calls_received_app, Hc2. reflexivity.
    + lia.
    + lia.
    + lia.
Qed.

(** The iteration that finds the stock, with what goes out. *)
Lemma main_loop_stopping_posts self w s :
  statistics_store w !! statistics self = Some s ->
  services_ok w (notification_services self) ->
  in_stock_reply (http_reply env (http_calls w)) = true ->
  let s' := incr_in_stock_count (incr_total_checks s) in
  exists w' evs,
    (forall fuel, main_loop env self (S fuel) w = (Returns Stopped, w')) /\
    trace w' = trace w ++ evs /\
    statistics_store w' !! statistics self = Some s' /\
    sleeps evs = [] /\
    posts evs =
      check_post self ::
      omap (webhook_post (with_statistics w (statistics self) s')
              in_stock_title in_stock_message SUCCESS)
        (notification_services self) /\
    calls_received evs =
      map (fun l => (l, in_stock_title, in_stock_message, SUCCESS))
        (notification_services self).
Proof.
  intros Hs Hok Hreply s'.
  destruct (in_stock_reply_true _ Hreply) as (resp & Hr & H200 & Hmark).
  destruct (check_in_stock_posts env self w s resp Hs Hok Hr H200 Hmark)
    as (evs & hc & bc & Hrun & Hp & Hc).
  assert (Hsl : sleeps evs = []).
  { destruct (check_in_stock env self w s resp Hs Hok Hr H200 Hmark)
      as (evs' & hc' & bc' & Hrun' & _ & Hsl' & _).
    rewrite Hrun in Hrun'. inversion Hrun' as [[He Hh Hb]].
    apply app_inv_head in He. injection He as He.
    apply app_inv_tail in He. now subst evs'. }
  eexists _, _. split; [| split; [| split; [| split; [| split]]]].
  - intros fuel. cbn [main_loop]. rewrite (bind_returns _ _ _ _ _ Hrun).
    unfold log. run_step. rewrite ret_run. reflexivity.
  - reflexivity.
  - apply with_statistics_lookup.
  - rewrite !sleeps_app, Hsl. reflexivity.
  - rewrite !posts_app, Hp. unfold check_request, check_post. simpl.
    now rewrite !app_nil_r.
  - rewrite !calls_received_app, Hc. unfold check_request. simpl.
    now rewrite !app_nil_r.
Qed.

Lemma main_is_loop fuel :
  main env fuel empty_world = main_loop env main_checker fuel (main_world env).
Proof. reflexivity. Qed.

Lemma main_world_explicit :
  main_world env =
    {| statistics_store := <[0%nat := Statistics_default]> ∅;
       service_store :=
         <[1%nat := DiscordNotificationService "your_webhook_link_here"
                      (Some 0%nat)]>
           (<[1%nat := DiscordNotificationService "your_webhook_link_here"
                         None]>
              (<[0%nat := DesktopNotificationService]> ∅));
       trace :=
         [ EvSystem (if String.eqb (os_name env) "nt" then "cls" else "clear");
           EvSystem (Title.title_command (os_name env) Statistics_default);
           EvLog "Starting availability checker for AirUp Charcoal Grey bottle..."
             INFO ];
       http_calls := 0;
       backend_calls := 0 |}.
Proof. reflexivity. Qed.

Lemma main_world_ok : services_ok (main_world env) [0%nat; 1%nat].
Proof.
  rewrite main_world_explicit.
  intros l [<-|[<-|[]]]; eexists; (split; [reflexivity |]);
    intros u r E; inversion E; subst; eexists; reflexivity.
Qed.

End LoopTraces.

(** X14. Over any number of checks in a row, [in_stock_count] grows by the
    number of checks that returned true, and [out_of_stock_count] and
    [error_count] together by the number of checks that returned false. *)
Theorem in_stock_count_counts_true_returns (env : Env) (self : AirUpChecker)
    (n : nat) (w : World) (s : Statistics) :
  statistics_store w !! statistics self = Some s ->
  services_ok w (notification_services self) ->
  exists bs w' s',
    check_repeatedly env self n w = (Returns bs, w') /\
    statistics_store w' !! statistics self = Some s' /\
    length bs = n /\
    in_stock_count s' = in_stock_count s + Z.of_nat (count_true bs) /\
    out_of_stock_count s' + error_count s' =
      out_of_stock_count s + error_count s
      + Z.of_nat (n - count_true bs).
Proof.
  revert w s. induction n as [|n IH]; intros w s Hs Hok.
  - exists [], w, s. cbn [check_repeatedly]. rewrite ret_run.
    repeat split; simpl; auto; lia.
  - destruct (check_availability_cases env self w s Hs Hok)
      as (b & s1 & evs & hc & bc & Hrun & _ & _ & Hcases).
    set (w1 := with_statistics (advance w evs (S hc) bc) (statistics self) s1)
      in *.
    destruct (IH w1 s1) as (bs & w' & s' & Hrep & Hs' & Hlen & Hin & Hout).
    { apply with_statistics_lookup. }
    { apply services_ok_with_statistics, services_ok_advance, Hok. }
    exists (b :: bs), w', s'. cbn [check_repeatedly].
    rewrite (bind_returns _ _ _ _ _ Hrun).
    rewrite (bind_returns _ _ _ _ _ Hrep), ret_run.
    split; [reflexivity |]. split; [exact Hs' |].
    split; [simpl; now rewrite Hlen |].
    assert (Hle : (count_true bs <= n)%nat).
    { rewrite <- Hlen. clear. induction bs as [|[] bs IHbs]; simpl; lia. }
    destruct Hcases as [[-> ->] | (-> & _ & _ & [-> | ->])];
      cbn [count_true] in *; simpl in Hin, Hout; simpl; lia.
Qed.

Lemma in_stock_count_counts_true_returns_witness :
  exists bs w' s',
    check_repeatedly Scenario.env Scenario.checker 5 (Scenario.world 0) =
      (Returns bs, w') /\
    statistics_store w' !! 0%nat = Some s' /\
    length bs = 5%nat /\
    in_stock_count s' = 0 + Z.of_nat (count_true bs) /\
    out_of_stock_count s' + error_count s' =
      0 + 0 + Z.of_nat (5 - count_true bs).
Proof.
  apply (in_stock_count_counts_true_returns Scenario.env Scenario.checker 5
           (Scenario.world 0) Statistics_default).
  - reflexivity.
  - concrete_services_ok.
Defined.

(** X15. A run of [main] from the start. If the first [k] answers of the
    endpoint are not "in stock" and the next one is, [main] ends after
    [k + 1] check requests, [k] sleeps of 300 seconds, one notification to
    the desktop backend and one to the Discord backend, in that order, and
    one webhook request whose embed shows [k + 1] checks and one in-stock
    outcome: [main] gives the Discord service the statistics object of the
    checker. While the answers are not "in stock" it sends one check
    request per iteration and notifies nobody. *)
Theorem main_run (env : Env) :
  (forall k,
     (forall i, (i < k)%nat -> in_stock_reply (http_reply env i) = false) ->
     in_stock_reply (http_reply env k) = true ->
     exists w' s',
       (forall fuel, (k < fuel)%nat ->
          main env fuel empty_world = (Returns Stopped, w')) /\
       statistics_store w' !! 0%nat = Some s' /\
       total_checks s' = Z.of_nat k + 1 /\
       in_stock_count s' = 1 /\
       out_of_stock_count s' + error_count s' = Z.of_nat k /\
       sleeps (trace w') = repeat 300 k /\
       calls_received (trace w') =
         [(0%nat, in_stock_title, in_stock_message, SUCCESS);
          (1%nat, in_stock_title, in_stock_message, SUCCESS)] /\
       posts (trace w') =
         repeat (check_post main_checker) (S k) ++
         [("your_webhook_link_here",
           WithJson [discord_embed in_stock_title in_stock_message
                       SUCCESS s'])]) /\
  (forall n,
     (forall i, (i < n)%nat -> in_stock_reply (http_reply env i) = false) ->
     exists w',
       main env n empty_world = (Returns StillRunning, w') /\
       sleeps (trace w') = repeat 300 n /\
       calls_received (trace w') = [] /\
       posts (trace w') = repeat (check_post main_checker) n).
Proof.
  assert (Hs0 : statistics_store (main_world env) !! statistics main_checker
                = Some Statistics_default) by reflexivity.
  split.
  - intros k Hnot Hin.
    destruct (main_loop_waiting_posts env main_checker k (main_world env)
                Statistics_default Hs0 Hnot)
      as (evs1 & s1 & Hrun1 & Hsl1 & Hp1 & Hc1 & Ht1 & Hi1 & Ho1).
    set (w1 := with_statistics (advance (main_world env) evs1 k 0)
                 (statistics main_checker) s1) in *.
    destruct (main_loop_stopping_posts env main_checker w1 s1)
      as (w' & evs2 & Hrun2 & Htr2 & Hs' & Hsl2 & Hp2 & Hc2).
    { apply with_statistics_lookup. }
    { apply services_ok_with_statistics, services_ok_advance,
        (main_world_ok env). }
    { cbn [http_calls with_statistics advance w1].
      rewrite main_world_explicit. cbn [http_calls].
      now rewrite Nat.add_0_r. }
    exists w', (incr_in_stock_count (incr_total_checks s1)).
    assert (Htrace : trace w' =
      trace (main_world env) ++ evs1 ++ evs2).
    { rewrite Htr2. cbn [trace with_statistics advance w1].
      now rewrite app_assoc. }
    split; [| split; [| split; [| split; [| split; [| split; [| split]]]]]].
    + intros fuel Hfuel. rewrite main_is_loop.
      replace fuel with (k + S (fuel - S k))%nat by lia.
      rewrite Hrun1. apply Hrun2.
    + exact Hs'.
    + simpl in *. lia.
    + simpl in *. lia.
    + simpl in *. lia.
    + rewrite Htrace, !sleeps_app, Hsl1, Hsl2. rewrite main_world_explicit.
      simpl. apply app_nil_r.
    + rewrite Htrace, !calls_received_app, Hc1, Hc2.
      rewrite main_world_explicit. reflexivity.
    + rewrite Htrace, !posts_app, Hp1, Hp2. rewrite main_world_explicit.
      cbn [trace posts omap list_omap app].
      change (S k) with (1 + k)%nat. rewrite Nat.add_comm, repeat_app.
      rewrite <- app_assoc. f_equal.
  - intros n Hnot.
    destruct (main_loop_waiting_posts env main_checker n (main_world env)
                Statistics_default Hs0 Hnot)
      as (evs & s' & Hrun & Hsl & Hp & Hc & _).
    eexists. split.
    + rewrite main_is_loop. rewrite <- (Nat.add_0_r n) at 1.
      rewrite Hrun. reflexivity.
    + cbn [trace with_statistics advance].
      rewrite sleeps_app, calls_received_app, posts_app, Hsl, Hp, Hc.
      rewrite main_world_explicit. now repeat split.
Qed.

Lemma main_run_witness :
  exists w' s',
    (forall fuel, (3 < fuel)%nat ->
       main Scenario.env fuel empty_world = (Returns Stopped, w')) /\
    statistics_store w' !! 0%nat = Some s' /\
    total_checks s' = 4 /\
    in_stock_count s' = 1 /\
    out_of_stock_count s' + error_count s' = 3 /\
    sleeps (trace w') = [300; 300; 300] /\
    calls_received (trace w') =
      [(0%nat, in_stock_title, in_stock_message, SUCCESS);
       (1%nat, in_stock_title, in_stock_message, SUCCESS)] /\
    posts (trace w') =
      repeat (check_post main_checker) 4 ++
      [("your_webhook_link_here",
        WithJson [discord_embed in_stock_title in_stock_message SUCCESS s'])].
Proof.
  destruct (main_run Scenario.env) as [HA _].
  apply (HA 3%nat); [| reflexivity].
  intros [|[|[|i]]] Hi; solve [reflexivity | lia].
Defined.
